(** * PCF85263A real-time-clock driver: register-level model

    Shallow embedding of [src/pcf85263a.py].  The driver class is a table of
    register descriptors (single bits, bit fields and a BCD date/time block)
    over an I2C device, a constructor and the [datetime] property.

    The chip sits behind a two-wire bus; here the bus and the chip's register
    file are an explicit state ([world]) threaded through a small state and
    exception monad.  Integers are [Z] with Python's semantics: unbounded,
    floor division, two's-complement bit operations. *)

From Stdlib Require Import ZArith List Bool Lia.
Import ListNotations.
Local Open Scope Z_scope.

(** ** Python values and exceptions *)

Module Py.

Inductive exn : Type := OSError | ValueError | IndexError.

Inductive result (A : Type) : Type :=
| Ok (a : A)
| Raise (e : exn).
Arguments Ok {A} a.
Arguments Raise {A} e.

(** [time.struct_time]: the nine-field tuple. *)
Record struct_time : Type := mk_struct_time {
  tm_year : Z; tm_mon : Z; tm_mday : Z;
  tm_hour : Z; tm_min : Z; tm_sec : Z;
  tm_wday : Z; tm_yday : Z; tm_isdst : Z
}.

(** A [bytearray] item holds an integer of [range(0, 256)]. *)
Definition is_byte (v : Z) : bool := (0 <=? v) && (v <? 256).

End Py.
Export Py.

(** ** The bus and the chip behind it *)

Module I2C.

(** What the driver asks of the outside world, in order. *)
Inductive event : Type :=
| Sleep (ms : Z)
| WriteThenReadInto (device : Z) (out : list Z) (n : nat)
| WriteTo (device : Z) (buf : list Z)
| ReadFromInto (device : Z) (n : nat).

(** [regs] is the chip's register file, [trace] the requests issued so far,
    [faults] the fate of the coming bus transactions: [true] means the
    transaction is not acknowledged (the transport raises [OSError] and the
    chip is left as it was); past the end of the list every transaction
    succeeds. *)
Record world : Type := mk_world {
  regs : Z -> Z;
  trace : list event;
  faults : list bool
}.

Definition M (A : Type) : Type := world -> result A * world.

Definition ret {A} (a : A) : M A := fun w => (Ok a, w).
Definition raise {A} (e : exn) : M A := fun w => (Raise e, w).
Definition bind {A B} (m : M A) (k : A -> M B) : M B :=
  fun w => match m w with
           | (Ok a, w') => k a w'
           | (Raise e, w') => (Raise e, w')
           end.

Definition upd (f : Z -> Z) (a v : Z) : Z -> Z :=
  fun x => if x =? a then v else f x.

(** The chip's register pointer auto-increments over a run of data bytes. *)
Fixpoint store_run (f : Z -> Z) (a : Z) (data : list Z) : Z -> Z :=
  match data with
  | [] => f
  | d :: rest => store_run (upd f a d) (a + 1) rest
  end.

Fixpoint read_run (f : Z -> Z) (a : Z) (n : nat) : list Z :=
  match n with
  | O => []
  | S k => f a :: read_run f (a + 1) k
  end.

Definition next_fault (w : world) : bool := hd false (faults w).

Definition issue (e : event) (w : world) : world :=
  {| regs := regs w; trace := trace w ++ [e]; faults := tl (faults w) |}.

Definition log (e : event) (w : world) : world :=
  {| regs := regs w; trace := trace w ++ [e]; faults := faults w |}.

Definition with_regs (f : Z -> Z) (w : world) : world :=
  {| regs := f; trace := trace w; faults := faults w |}.

(** [adafruit_bus_device.i2c_device.I2CDevice]: the handle on the device at
    a 7-bit address.  The bus lock the handle takes around each use is
    always free here (one thread, one driver). *)
Record I2CDevice : Type := mk_I2CDevice { device_address : Z }.

(** [time.sleep(seconds)], in milliseconds. *)
Definition sleep (ms : Z) : M unit := fun w => (Ok tt, log (Sleep ms) w).

(** [i2c.write(buf)]: one write transaction, the register address followed
    by the data bytes. *)
Definition write (dev : I2CDevice) (buf : list Z) : M unit :=
  fun w =>
    let w1 := issue (WriteTo (device_address dev) buf) w in
    if next_fault w then (Raise OSError, w1)
    else match buf with
         | [] => (Ok tt, w1)
         | a :: data => (Ok tt, with_regs (store_run (regs w) a data) w1)
         end.

(** [i2c.write_then_readinto(buf, buf, out_end=1, in_start=1)]: one
    transaction that writes the register address [buf[0]] and reads
    [len(buf) - 1] bytes back into [buf[1:]].  The result is the buffer
    after the call. *)
Definition write_then_readinto (dev : I2CDevice) (buf : list Z) : M (list Z) :=
  fun w =>
    match buf with
    | [] => (Raise IndexError, w)
    | a :: rest =>
        let w1 := issue (WriteThenReadInto (device_address dev) [a] (length rest)) w in
        if next_fault w then (Raise OSError, w1)
        else (Ok (a :: read_run (regs w) a (length rest)), w1)
    end.

(** [i2c.readfrom_into(address, buffer)]: one plain read of [n] bytes.  The
    chip's register pointer is not part of the state and the one caller
    throws the buffer away, so the bytes read are not given. *)
Definition readfrom_into (dev : I2CDevice) (n : nat) : M unit :=
  fun w =>
    let w1 := issue (ReadFromInto (device_address dev) n) w in
    if next_fault w then (Raise OSError, w1) else (Ok tt, w1).

(** [try: body / except OSError: handler]. *)
Definition except_OSError {A} (body handler : M A) : M A :=
  fun w => match body w with
           | (Raise OSError, w') => handler w'
           | other => other
           end.

(** [I2CDevice.__probe_for_device]: write zero bytes to the address; if
    that is refused read one byte instead; if that is refused too, raise
    [ValueError] (no device at the address). *)
Definition __probe_for_device (self : I2CDevice) : M unit :=
  except_OSError (write self [])
    (except_OSError (readfrom_into self 1) (raise ValueError)).

(** [I2CDevice(i2c, device_address)] with the default [probe=True]. *)
Definition I2CDevice_init (device_address : Z) : M I2CDevice :=
  let self := {| device_address := device_address |} in
  bind (__probe_for_device self) (fun _ => ret self).

(** [buf[i]] and [buf[i] = v] on a [bytearray]. *)
Definition getitem (buf : list Z) (i : nat) : M Z :=
  match nth_error buf i with
  | Some b => ret b
  | None => raise IndexError
  end.

Fixpoint replace (buf : list Z) (i : nat) (v : Z) : list Z :=
  match buf, i with
  | [], _ => []
  | _ :: rest, O => v :: rest
  | b :: rest, S k => b :: replace rest k v
  end.

Definition setitem (buf : list Z) (i : nat) (v : Z) : M (list Z) :=
  if (i <? length buf)%nat then
    if is_byte v then ret (replace buf i v) else raise ValueError
  else raise IndexError.

End I2C.
Export I2C.

Notation "x <- m ;; k" := (bind m (fun x => k))
  (at level 61, m at next level, right associativity).
Notation "m ;;; k" := (bind m (fun _ => k))
  (at level 61, right associativity).

(** ** Register descriptors

    The driver imports its descriptors from the Adafruit Register library
    ([from adafruit_register import i2c_bit, i2c_bits, i2c_bcd_datetime],
    lines 41-44); that library is a dependency and not part of this
    repository.  The three classes below follow the library's methods
    statement by statement for one-byte registers, which is all the driver
    declares.  A descriptor keeps a [bytearray] whose first item is the
    register address; every method refills the rest before using it, so the
    buffer is rebuilt here on each call. *)

Module i2c_bit.

(** [RWBit(register_address, bit)] with the defaults [register_width=1],
    [lsb_first=True]: [bit_mask = 1 << (bit % 8)], a two-byte buffer and
    [byte = bit // 8 + 1]. *)
Record RWBit : Type := mk_RWBit {
  bit_mask : Z;
  buffer : list Z;
  byte : nat
}.

Definition RWBit_init (register_address bit : Z) : RWBit :=
  {| bit_mask := Z.shiftl 1 (bit mod 8);
     buffer := [register_address; 0];
     byte := Z.to_nat (bit / 8 + 1) |}.

(** [__get__]: read the register, return [bool(buffer[byte] & bit_mask)]. *)
Definition get (self : RWBit) (dev : I2CDevice) : M bool :=
  buf <- write_then_readinto dev (buffer self) ;;
  b <- getitem buf (byte self) ;;
  ret (negb (Z.land b (bit_mask self) =? 0)).

(** [__set__]: read the register, [|= bit_mask] or [&= ~bit_mask], write
    the buffer back. *)
Definition set (self : RWBit) (dev : I2CDevice) (value : bool) : M unit :=
  buf <- write_then_readinto dev (buffer self) ;;
  b <- getitem buf (byte self) ;;
  buf' <- setitem buf (byte self)
            (if value then Z.lor b (bit_mask self)
             else Z.land b (Z.lnot (bit_mask self))) ;;
  write dev buf'.

End i2c_bit.

Module i2c_bits.

(** [RWBits(num_bits, register_address, lowest_bit)] with the defaults
    [register_width=1], [lsb_first=True], [signed=False]:
    [bit_mask = ((1 << num_bits) - 1) << lowest_bit] and [sign_bit = 0]. *)
Record RWBits : Type := mk_RWBits {
  bit_mask : Z;
  lowest_bit : Z;
  buffer : list Z;
  sign_bit : Z
}.

Definition RWBits_init (num_bits register_address lowest_bit : Z) : RWBits :=
  {| bit_mask := Z.shiftl (Z.shiftl 1 num_bits - 1) lowest_bit;
     lowest_bit := lowest_bit;
     buffer := [register_address; 0];
     sign_bit := 0 |}.

(** The constructor raises [ValueError] when the mask does not fit the
    register: [bit_mask >= 1 << (register_width * 8)]. *)
Definition fits_register (self : RWBits) : bool :=
  negb (Z.shiftl 1 (1 * 8) <=? bit_mask self).

(** [__get__]: [reg = (reg << 8) | buffer[1]] from [reg = 0], then
    [(reg & bit_mask) >> lowest_bit], minus [2 * sign_bit] when the sign
    bit is set. *)
Definition get (self : RWBits) (dev : I2CDevice) : M Z :=
  buf <- write_then_readinto dev (buffer self) ;;
  b <- getitem buf 1 ;;
  let reg := Z.lor (Z.shiftl 0 8) b in
  let reg := Z.shiftr (Z.land reg (bit_mask self)) (lowest_bit self) in
  ret (if Z.land reg (sign_bit self) =? 0 then reg
       else reg - 2 * sign_bit self).

(** [__set__]: [value <<= lowest_bit]; read the register;
    [reg &= ~bit_mask]; [reg |= value]; [buffer[1] = reg & 0xFF]; write the
    buffer back. *)
Definition set (self : RWBits) (dev : I2CDevice) (value : Z) : M unit :=
  let value := Z.shiftl value (lowest_bit self) in
  buf <- write_then_readinto dev (buffer self) ;;
  b <- getitem buf 1 ;;
  let reg := Z.lor (Z.shiftl 0 8) b in
  let reg := Z.land reg (Z.lnot (bit_mask self)) in
  let reg := Z.lor reg value in
  buf' <- setitem buf 1 (Z.land reg 0xFF) ;;
  write dev buf'.

End i2c_bits.

Module i2c_bcd_datetime.

(** [_bcd2bin(value) = value - 6 * (value >> 4)] and
    [_bin2bcd(value) = value + 6 * (value // 10)]. *)
Definition _bcd2bin (value : Z) : Z := value - 6 * Z.shiftr value 4.
Definition _bin2bcd (value : Z) : Z := value + 6 * (value / 10).

(** [BCDDateTimeRegister(register_address, weekday_first, weekday_start)]:
    an eight-byte buffer, [weekday_offset = 0] when the weekday byte comes
    before the day byte and [1] otherwise. *)
Record BCDDateTimeRegister : Type := mk_BCDDateTimeRegister {
  buffer : list Z;
  weekday_offset : nat;
  weekday_start : Z
}.

Definition BCDDateTimeRegister_init (register_address : Z)
    (weekday_first : bool) (weekday_start : Z) : BCDDateTimeRegister :=
  {| buffer := register_address :: repeat 0 7;
     weekday_offset := if weekday_first then 0%nat else 1%nat;
     weekday_start := weekday_start |}.

(** [__get__]: read seven bytes and decode them.  Each byte is first
    masked to the bits its field uses: [0x1F] for the month, [0x3F] for the
    day and the hours, [0x7F] for the minutes and the seconds, [0x07] for
    the weekday; the year byte is taken whole.  The result is
    [struct_time((year + 2000, month, day, hours, minutes, seconds,
    weekday, -1, -1))]. *)
Definition get (self : BCDDateTimeRegister) (dev : I2CDevice) : M struct_time :=
  buf <- write_then_readinto dev (buffer self) ;;
  b7 <- getitem buf 7 ;;
  b6 <- getitem buf 6 ;;
  bd <- getitem buf (5 - weekday_offset self) ;;
  b3 <- getitem buf 3 ;;
  b2 <- getitem buf 2 ;;
  b1 <- getitem buf 1 ;;
  bw <- getitem buf (4 + weekday_offset self) ;;
  ret {| tm_year := _bcd2bin b7 + 2000;
         tm_mon := _bcd2bin (Z.land b6 0x1F);
         tm_mday := _bcd2bin (Z.land bd 0x3F);
         tm_hour := _bcd2bin (Z.land b3 0x3F);
         tm_min := _bcd2bin (Z.land b2 0x7F);
         tm_sec := _bcd2bin (Z.land b1 0x7F);
         tm_wday := _bcd2bin (Z.land bw 0x07 - weekday_start self);
         tm_yday := -1;
         tm_isdst := -1 |}.

(** [__set__]: fill the buffer item by item,
    [buffer[1] = _bin2bcd(value.tm_sec) & 0x7F], [buffer[2]] the minutes,
    [buffer[3]] the hours, [buffer[4 + weekday_offset]] the weekday plus
    [weekday_start], [buffer[5 - weekday_offset]] the day, [buffer[6]] the
    month, [buffer[7] = _bin2bcd(value.tm_year - 2000)]; then issue one write
    of the whole buffer.  The fields are not compared with any bound; a
    store into the [bytearray] raises [ValueError] outside [range(0, 256)]. *)
Definition set (self : BCDDateTimeRegister) (dev : I2CDevice)
    (value : struct_time) : M unit :=
  buf <- setitem (buffer self) 1 (Z.land (_bin2bcd (tm_sec value)) 0x7F) ;;
  buf <- setitem buf 2 (_bin2bcd (tm_min value)) ;;
  buf <- setitem buf 3 (_bin2bcd (tm_hour value)) ;;
  buf <- setitem buf (4 + weekday_offset self)
           (_bin2bcd (tm_wday value + weekday_start self)) ;;
  buf <- setitem buf (5 - weekday_offset self) (_bin2bcd (tm_mday value)) ;;
  buf <- setitem buf 6 (_bin2bcd (tm_mon value)) ;;
  buf <- setitem buf 7 (_bin2bcd (tm_year value - 2000)) ;;
  write dev buf.

End i2c_bcd_datetime.

(** ** The driver class, [src/pcf85263a.py] lines 53-194

    The class attributes are the descriptors with the constructor arguments
    of the source.  The alarm block (line 129) and the three timestamp blocks
    (lines 107-122) are other descriptor classes over other registers; no
    statement below reads or writes them and they are left out. *)

Module PCF85263A.

Import i2c_bit i2c_bits i2c_bcd_datetime.

Definition datetime_compromised : RWBit := RWBit_init 0x1 7.
Definition datetime_register : BCDDateTimeRegister :=
  BCDDateTimeRegister_init 0x01 false 0.

Definition timestamp1_control_mode : RWBits := RWBits_init 2 0x23 0.
Definition timestamp1_mode_no_timestamp : Z := 0.
Definition timestamp1_mode_first_ts_pin_event : Z := 1.
Definition timestamp1_mode_last_ts_pin_event : Z := 2.

Definition timestamp2_control_mode : RWBits := RWBits_init 3 0x23 2.
Definition timestamp2_mode_no_timestamp : Z := 0.
Definition timestamp2_mode_first_switch_to_battery : Z := 1.
Definition timestamp2_mode_last_switch_to_battery : Z := 2.
Definition timestamp2_mode_last_switch_to_vdd : Z := 3.
Definition timestamp2_mode_first_ts_pin_event : Z := 4.
Definition timestamp2_mode_last_ts_pin_event : Z := 5.

Definition timestamp3_control_mode : RWBits := RWBits_init 2 0x23 6.
Definition timestamp3_mode_no_timestamp : Z := 0.
Definition timestamp3_mode_first_switch_to_battery : Z := 1.
Definition timestamp3_mode_last_switch_to_battery : Z := 2.
Definition timestamp3_mode_last_switch_to_vdd : Z := 3.

Definition alarm_interrupt : RWBit := RWBit_init 0x01 1.

Definition periodic_interrupt_flag : RWBit := RWBit_init 0x2B 7.
Definition alarm2_flag : RWBit := RWBit_init 0x2B 6.
Definition alarm1_flag : RWBit := RWBit_init 0x2B 5.
Definition watchdog_flag : RWBit := RWBit_init 0x2B 4.
Definition battery_switch_flag : RWBit := RWBit_init 0x2B 3.
Definition timestamp3_event_flag : RWBit := RWBit_init 0x2B 2.
Definition timestamp2_event_flag : RWBit := RWBit_init 0x2B 1.
Definition timestamp1_event_flag : RWBit := RWBit_init 0x2B 0.

Definition alarm2_control_compare_weekdays : RWBit := RWBit_init 0x10 7.
Definition alarm2_control_compare_hours : RWBit := RWBit_init 0x10 6.
Definition alarm2_control_compare_minutes : RWBit := RWBit_init 0x10 5.
Definition alarm1_control_compare_months : RWBit := RWBit_init 0x10 4.
Definition alarm1_control_compare_days : RWBit := RWBit_init 0x10 3.
Definition alarm1_control_compare_hours : RWBit := RWBit_init 0x10 2.
Definition alarm1_control_compare_minutes : RWBit := RWBit_init 0x10 1.
Definition alarm1_control_compare_seconds : RWBit := RWBit_init 0x10 0.

Definition oscillator_capacitance : RWBits := RWBits_init 2 0x25 0.
Definition oscillator_capacitance_7pf : Z := 0.
Definition oscillator_capacitance_6pf : Z := 1.
Definition oscillator_capacitance_12_5pf : Z := 2.

Definition offset_register : RWBits := RWBits_init 8 0x24 0.

(** The instance: its only attribute is the device handle. *)
Record t : Type := mk { i2c_device : I2CDevice }.

(** [__init__]: sleep 0.05 s, make the device at address 0x51 (which
    probes the address), put 0x12 in a two-byte buffer and read one byte
    after it.  The byte read stays in the buffer and is not looked at. *)
Definition __init__ : M t :=
  sleep 50 ;;;
  dev <- I2CDevice_init 0x51 ;;
  let self := {| i2c_device := dev |} in
  buf <- setitem [0; 0] 0 0x12 ;;
  _ <- write_then_readinto (i2c_device self) buf ;;
  ret self.

(** The [datetime] property: getter (line 188) and setter (lines 193-194). *)
Definition datetime (self : t) : M struct_time :=
  i2c_bcd_datetime.get datetime_register (i2c_device self).

Definition datetime_setter (self : t) (value : struct_time) : M unit :=
  i2c_bcd_datetime.set datetime_register (i2c_device self) value ;;;
  i2c_bit.set datetime_compromised (i2c_device self) false.

End PCF85263A.

(** ** Vocabulary of the statements *)

(** The driver instance [__init__] builds. *)
Definition rtc : PCF85263A.t :=
  {| PCF85263A.i2c_device := {| device_address := 0x51 |} |}.

(** Every register of the chip holds one byte. *)
Definition byte_file (f : Z -> Z) : Prop := forall a, 0 <= f a < 256.
Definition byte_regs (w : world) : Prop := byte_file (regs w).

(** No transaction of the rest of the run is refused by the bus. *)
Definition fault_free (w : world) : Prop := faults w = [].

(** The byte [RWBit.set] leaves in its register. *)
Definition with_bit (b k : Z) (value : bool) : Z :=
  if value then Z.setbit b k else Z.clearbit b k.

(** The byte [RWBits.set] stores for old byte [b] and new field value [v]. *)
Definition splice (mask lowest b v : Z) : Z :=
  Z.land (Z.lor (Z.land (Z.lor (Z.shiftl 0 8) b) (Z.lnot mask)) (Z.shiftl v lowest)) 0xFF.

(** The field [RWBits.get] extracts from byte [b]. *)
Definition extract (mask lowest b : Z) : Z :=
  Z.shiftr (Z.land (Z.lor (Z.shiftl 0 8) b) mask) lowest.

(** The DateTime domain: two-digit year counted from 2000, month, day,
    weekday, hour, minute, second. *)
Definition valid_datetime (v : struct_time) : bool :=
  (0 <=? tm_year v - 2000) && (tm_year v - 2000 <=? 99) &&
  (1 <=? tm_mon v) && (tm_mon v <=? 12) &&
  (1 <=? tm_mday v) && (tm_mday v <=? 31) &&
  (0 <=? tm_wday v) && (tm_wday v <=? 6) &&
  (0 <=? tm_hour v) && (tm_hour v <=? 23) &&
  (0 <=? tm_min v) && (tm_min v <=? 59) &&
  (0 <=? tm_sec v) && (tm_sec v <=? 59).

(** The seven DateTime fields of two [struct_time] values agree. *)
Definition same_fields (a b : struct_time) : Prop :=
  tm_year a = tm_year b /\ tm_mon a = tm_mon b /\ tm_mday a = tm_mday b /\
  tm_wday a = tm_wday b /\ tm_hour a = tm_hour b /\ tm_min a = tm_min b /\
  tm_sec a = tm_sec b.

(** The seven bytes [BCDDateTimeRegister.set] puts after the register
    address for the driver's block (day before weekday, weekday from 0). *)
Definition datetime_bytes (v : struct_time) : list Z :=
  [ Z.land (i2c_bcd_datetime._bin2bcd (tm_sec v)) 0x7F;
    i2c_bcd_datetime._bin2bcd (tm_min v);
    i2c_bcd_datetime._bin2bcd (tm_hour v);
    i2c_bcd_datetime._bin2bcd (tm_mday v);
    i2c_bcd_datetime._bin2bcd (tm_wday v + 0);
    i2c_bcd_datetime._bin2bcd (tm_mon v);
    i2c_bcd_datetime._bin2bcd (tm_year v - 2000) ].

(** Every byte of the block passes the [bytearray] range check. *)
Definition storable (v : struct_time) : bool := forallb is_byte (datetime_bytes v).

(** The [struct_time] decoded from the seven registers from 0x01 on. *)
Definition decoded (f : Z -> Z) : struct_time :=
  {| tm_year := i2c_bcd_datetime._bcd2bin (f 7) + 2000;
     tm_mon := i2c_bcd_datetime._bcd2bin (Z.land (f 6) 0x1F);
     tm_mday := i2c_bcd_datetime._bcd2bin (Z.land (f 4) 0x3F);
     tm_hour := i2c_bcd_datetime._bcd2bin (Z.land (f 3) 0x3F);
     tm_min := i2c_bcd_datetime._bcd2bin (Z.land (f 2) 0x7F);
     tm_sec := i2c_bcd_datetime._bcd2bin (Z.land (f 1) 0x7F);
     tm_wday := i2c_bcd_datetime._bcd2bin (Z.land (f 5) 0x07 - 0);
     tm_yday := -1;
     tm_isdst := -1 |}.

(** The register file after the setter's two steps: the block stored from
    0x01 on, then bit 7 of register 0x01 cleared. *)
Definition block_stored (value : struct_time) (f : Z -> Z) : Z -> Z :=
  store_run f 0x01 (datetime_bytes value).

Definition flag_cleared (f : Z -> Z) : Z -> Z :=
  upd f 0x01 (with_bit (f 0x01) 7 false).

(** The three transactions of a successful [datetime] assignment. *)
Definition setter_events (value : struct_time) (f : Z -> Z) : list event :=
  [ WriteTo 0x51 (0x01 :: datetime_bytes value);
    WriteThenReadInto 0x51 [0x01] 1;
    WriteTo 0x51 [0x01; with_bit (block_stored value f 0x01) 7 false] ].

(** Bit [j] lies in the field of [n] bits whose lowest bit is [lo]. *)
Definition in_field (lo n j : Z) : bool := (lo <=? j) && (j <? lo + n).

(** A read of the one-bit field [d] answers bit [k] of register [a]. *)
Definition reads_bit (d : i2c_bit.RWBit) (a k : Z) (w : world) : Prop :=
  fst (i2c_bit.get d (PCF85263A.i2c_device rtc) w) =
  if next_fault w then Raise OSError else Ok (Z.testbit (regs w a) k).

(** A write of [on] to the one-bit field [d] succeeds and changes bit [k] of
    register [a] and nothing else on the chip. *)
Definition writes_bit (d : i2c_bit.RWBit) (a k : Z) (on : bool) (w : world) : Prop :=
  exists w',
    i2c_bit.set d (PCF85263A.i2c_device rtc) on w = (Ok tt, w')
    /\ regs w' a = with_bit (regs w a) k on
    /\ (forall j, Z.testbit (regs w' a) j
                  = if k =? j then on else Z.testbit (regs w a) j)
    /\ (forall x, x <> a -> regs w' x = regs w x).

(** The eight flags of register 0x2B and the eight compare enables of
    register 0x10, each with the bit the class gives it. *)
Definition status_flags : list (i2c_bit.RWBit * Z) :=
  [ (PCF85263A.periodic_interrupt_flag, 7);
    (PCF85263A.alarm2_flag, 6);
    (PCF85263A.alarm1_flag, 5);
    (PCF85263A.watchdog_flag, 4);
    (PCF85263A.battery_switch_flag, 3);
    (PCF85263A.timestamp3_event_flag, 2);
    (PCF85263A.timestamp2_event_flag, 1);
    (PCF85263A.timestamp1_event_flag, 0) ].

Definition alarm_enables : list (i2c_bit.RWBit * Z) :=
  [ (PCF85263A.alarm2_control_compare_weekdays, 7);
    (PCF85263A.alarm2_control_compare_hours, 6);
    (PCF85263A.alarm2_control_compare_minutes, 5);
    (PCF85263A.alarm1_control_compare_months, 4);
    (PCF85263A.alarm1_control_compare_days, 3);
    (PCF85263A.alarm1_control_compare_hours, 2);
    (PCF85263A.alarm1_control_compare_minutes, 1);
    (PCF85263A.alarm1_control_compare_seconds, 0) ].

(** The three mode selectors of register 0x23 with their lowest bit and
    width, as the class declares them. *)
Definition mode_selectors : list (i2c_bits.RWBits * (Z * Z)) :=
  [ (PCF85263A.timestamp1_control_mode, (0, 2));
    (PCF85263A.timestamp2_control_mode, (2, 3));
    (PCF85263A.timestamp3_control_mode, (6, 2)) ].

(** *** Sample values *)

(** A chip whose mode register 0x23 holds [b] and every other register 0. *)
Definition mode_byte (b : Z) : world :=
  {| regs := fun a => if a =? 0x23 then b else 0; trace := []; faults := [] |}.


(** A chip just powered: the oscillator-stop flag is up, a few other bits
    are set. *)
Definition sample_regs : Z -> Z :=
  fun a => if a =? 0x01 then 0x80
           else if a =? 0x10 then 0x00
           else if a =? 0x12 then 0x07
           else if a =? 0x23 then 0x45
           else if a =? 0x2B then 0xA5
           else 0.

Definition sample : world := {| regs := sample_regs; trace := []; faults := [] |}.

Definition blank : world := {| regs := fun _ => 0; trace := []; faults := [] |}.

(** Friday 15 March 2024, 14:30:45 ([tm_wday] counts from Monday = 0). *)
Definition friday : struct_time :=
  {| tm_year := 2024; tm_mon := 3; tm_mday := 15;
     tm_hour := 14; tm_min := 30; tm_sec := 45;
     tm_wday := 4; tm_yday := 75; tm_isdst := 0 |}.

(** The same instant with the seconds field one past its domain. *)
Definition leap : struct_time :=
  {| tm_year := 2024; tm_mon := 3; tm_mday := 15;
     tm_hour := 14; tm_min := 30; tm_sec := 60;
     tm_wday := 4; tm_yday := 75; tm_isdst := 0 |}.

(** A minute too large for its BCD byte. *)
Definition overlong : struct_time :=
  {| tm_year := 2024; tm_mon := 3; tm_mday := 15;
     tm_hour := 14; tm_min := 160; tm_sec := 45;
     tm_wday := 4; tm_yday := 75; tm_isdst := 0 |}.

(** *** Tables and samples for the further properties *)

(** Every one-bit field of the class with its register and bit. *)
Definition bit_fields : list (i2c_bit.RWBit * (Z * Z)) :=
  (PCF85263A.datetime_compromised, (0x01, 7)) ::
  (PCF85263A.alarm_interrupt, (0x01, 1)) ::
  map (fun p => (fst p, (0x2B, snd p))) status_flags ++
  map (fun p => (fst p, (0x10, snd p))) alarm_enables.

(** Every multi-bit field of the class with its register, lowest bit and
    width. *)
Definition multi_bit_fields : list (i2c_bits.RWBits * (Z * (Z * Z))) :=
  [ (PCF85263A.timestamp1_control_mode, (0x23, (0, 2)));
    (PCF85263A.timestamp2_control_mode, (0x23, (2, 3)));
    (PCF85263A.timestamp3_control_mode, (0x23, (6, 2)));
    (PCF85263A.oscillator_capacitance, (0x25, (0, 2)));
    (PCF85263A.offset_register, (0x24, (0, 8))) ].

(** A byte made of two decimal digits. *)
Definition is_bcd (b : Z) : bool := (Z.land b 0xF <=? 9) && (Z.shiftr b 4 <=? 9).

(** Byte [b] has no bit outside [mask]. *)
Definition within (mask b : Z) : bool := Z.land b mask =? b.

(** The seven registers of the date/time block hold decimal digits in the
    bits their fields use and nothing outside them (the flag bit of the
    seconds register set aside). *)
Definition holds_bcd_block (f : Z -> Z) : bool :=
  is_bcd (Z.land (f 1) 0x7F)
  && forallb (fun a => is_bcd (f a)) [2; 3; 4; 5; 6; 7]
  && within 0x7F (f 2) && within 0x3F (f 3) && within 0x3F (f 4)
  && within 0x07 (f 5) && within 0x1F (f 6).

(** The number written with the two hexadecimal digits of [m] read as
    decimal digits: ten times the high nibble plus the low nibble. *)
Definition two_digits (m : Z) : Z := 10 * (m / 16) + m mod 16.

(** [r] is what the seven registers from 0x01 on say, digit by digit. *)
Definition reads_digits (f : Z -> Z) (r : struct_time) : Prop :=
  tm_sec r = two_digits (Z.land (f 1) 0x7F)
  /\ tm_min r = two_digits (Z.land (f 2) 0x7F)
  /\ tm_hour r = two_digits (Z.land (f 3) 0x3F)
  /\ tm_mday r = two_digits (Z.land (f 4) 0x3F)
  /\ tm_wday r = Z.land (f 5) 0x07
  /\ tm_mon r = two_digits (Z.land (f 6) 0x1F)
  /\ tm_year r = 2000 + two_digits (f 7)
  /\ tm_yday r = -1 /\ tm_isdst r = -1.

(** Transaction number [n] (from 0) of the run to come is refused. *)
Definition refused (n : nat) (w : world) : bool := nth n (faults w) false.

(** The sample registers on a bus where nothing answers the first two
    transactions. *)
Definition absent : world :=
  {| regs := sample_regs; trace := []; faults := [true; true] |}.

(** The sample chip on a bus that refuses transaction number [k] (from 0). *)
Definition refused_at (k : nat) : world :=
  {| regs := sample_regs; trace := []; faults := repeat false k ++ [true] |}.

(** A chip whose clock shows Friday 15 March 2024, 14:30:45 with the
    oscillator-stop flag up. *)
Definition running_regs : Z -> Z :=
  fun a => if a =? 1 then 0xC5
           else if a =? 2 then 0x30
           else if a =? 3 then 0x14
           else if a =? 4 then 0x15
           else if a =? 5 then 0x04
           else if a =? 6 then 0x03
           else if a =? 7 then 0x24
           else if a =? 0x2B then 0xA5
           else 0.

Definition running : world := {| regs := running_regs; trace := []; faults := [] |}.

(** Checking a predicate on each of the 256 byte values. *)
Definition all_bytes (P : Z -> bool) : bool :=
  forallb P (map Z.of_nat (seq 0 256)).

(** * Lemmas *)

(** ** Bytes and bits *)

Lemma all_bytes_sound (P : Z -> bool) :
  all_bytes P = true -> forall b, 0 <= b < 256 -> P b = true.
Proof.
  unfold all_bytes. intros H b Hb.
  rewrite forallb_forall in H. apply H.
  apply in_map_iff. exists (Z.to_nat b). split; [lia|].
  apply in_seq. lia.
Qed.

Lemma is_byte_iff (v : Z) : is_byte v = true <-> 0 <= v < 256.
Proof. unfold is_byte. rewrite andb_true_iff, Z.leb_le, Z.ltb_lt. tauto. Qed.

Lemma high_bits_of_byte (b k : Z) : 0 <= b < 256 -> 8 <= k -> Z.testbit b k = false.
Proof.
  intros Hb Hk. destruct (Z.eq_dec b 0) as [->|Hn]; [apply Z.bits_0|].
  apply Z.bits_above_log2; [lia|].
  assert (Z.log2 b < 8); [|lia].
  apply Z.log2_lt_pow2; [lia|]. change (2 ^ 8) with 256. lia.
Qed.

Lemma land_pow2_zero (b k : Z) :
  0 <= k -> (Z.land b (Z.shiftl 1 k) =? 0) = negb (Z.testbit b k).
Proof.
  intros Hk. rewrite Z.shiftl_1_l.
  destruct (Z.testbit b k) eqn:E; simpl.
  - apply Z.eqb_neq. intros H0.
    assert (Z.testbit (Z.land b (2 ^ k)) k = false) as F by (rewrite H0; apply Z.bits_0).
    rewrite Z.land_spec, E, Z.pow2_bits_true in F by lia. discriminate.
  - apply Z.eqb_eq. apply Z.bits_inj'. intros n Hn.
    rewrite Z.land_spec, Z.bits_0, Z.pow2_bits_eqb by lia.
    destruct (Z.eqb_spec k n); subst; [rewrite E|]; auto using andb_false_r.
Qed.

Lemma lor_pow2_setbit (b k : Z) : Z.lor b (Z.shiftl 1 k) = Z.setbit b k.
Proof. reflexivity. Qed.

Lemma land_lnot_pow2_clearbit (b k : Z) :
  Z.land b (Z.lnot (Z.shiftl 1 k)) = Z.clearbit b k.
Proof. unfold Z.clearbit. now rewrite Z.ldiff_land. Qed.

Lemma with_bit_spec (b k j : Z) (value : bool) :
  0 <= k ->
  Z.testbit (with_bit b k value) j = if k =? j then value else Z.testbit b j.
Proof.
  intros Hk. unfold with_bit. destruct value.
  - rewrite Z.setbit_eqb by lia. now destruct (k =? j).
  - rewrite Z.clearbit_eqb. destruct (k =? j); simpl;
      [apply andb_false_r | apply andb_true_r].
Qed.

Lemma with_bit_byte (b k : Z) (value : bool) :
  0 <= b < 256 -> 0 <= k < 8 -> 0 <= with_bit b k value < 256.
Proof.
  intros Hb Hk.
  assert (0 <= with_bit b k value) as Hnn.
  { unfold with_bit. destruct value.
    - rewrite Z.setbit_spec'. apply Z.lor_nonneg. split; [lia|]. apply Z.pow_nonneg; lia.
    - rewrite Z.clearbit_spec'. apply Z.ldiff_nonneg. lia. }
  split; [assumption|].
  destruct (Z.eq_dec (with_bit b k value) 0) as [->|Hnz]; [lia|].
  change 256 with (2 ^ 8). apply Z.log2_lt_pow2; [lia|].
  destruct (Z.lt_ge_cases (Z.log2 (with_bit b k value)) 8) as [|Hge]; [assumption|].
  exfalso.
  assert (Z.testbit (with_bit b k value) (Z.log2 (with_bit b k value)) = true) as T
    by (apply Z.bit_log2; lia).
  rewrite with_bit_spec in T by lia.
  destruct (Z.eqb_spec k (Z.log2 (with_bit b k value))); [lia|].
  rewrite high_bits_of_byte in T by lia. discriminate.
Qed.

(** ** Worlds *)

Lemma faults_issue (e : event) (w : world) : faults (issue e w) = tl (faults w).
Proof. reflexivity. Qed.

Lemma regs_issue (e : event) (w : world) : regs (issue e w) = regs w.
Proof. reflexivity. Qed.

Lemma trace_issue (e : event) (w : world) : trace (issue e w) = trace w ++ [e].
Proof. reflexivity. Qed.

Lemma regs_with_regs (f : Z -> Z) (w : world) : regs (with_regs f w) = f.
Proof. reflexivity. Qed.

Lemma trace_with_regs (f : Z -> Z) (w : world) : trace (with_regs f w) = trace w.
Proof. reflexivity. Qed.

Lemma faults_with_regs (f : Z -> Z) (w : world) : faults (with_regs f w) = faults w.
Proof. reflexivity. Qed.

Create Rewrite HintDb world.
#[export] Hint Rewrite faults_issue regs_issue trace_issue
  regs_with_regs trace_with_regs faults_with_regs : world.

Lemma upd_same (f : Z -> Z) (a v : Z) : upd f a v a = v.
Proof. unfold upd. now rewrite Z.eqb_refl. Qed.

Lemma upd_other (f : Z -> Z) (a v x : Z) : x <> a -> upd f a v x = f x.
Proof. unfold upd. intros H. now destruct (Z.eqb_spec x a). Qed.

(** ** One-bit fields on the bus *)

Lemma RWBit_init_small (addr k : Z) :
  0 <= k < 8 ->
  i2c_bit.RWBit_init addr k =
  {| i2c_bit.bit_mask := Z.shiftl 1 k; i2c_bit.buffer := [addr; 0]; i2c_bit.byte := 1 |}.
Proof.
  intros Hk. unfold i2c_bit.RWBit_init.
  now rewrite Z.mod_small, Z.div_small by lia.
Qed.

(** Reading a bit: one transaction; the answer is bit [k] of the register. *)
Lemma RWBit_get_run (addr k : Z) (dev : I2CDevice) (w : world) :
  0 <= k < 8 ->
  i2c_bit.get (i2c_bit.RWBit_init addr k) dev w =
  let w1 := issue (WriteThenReadInto (device_address dev) [addr] 1) w in
  if next_fault w then (Raise OSError, w1)
  else (Ok (Z.testbit (regs w addr) k), w1).
Proof.
  intros Hk. rewrite RWBit_init_small by assumption.
  unfold i2c_bit.get, bind, write_then_readinto. cbn.
  destruct (next_fault w); [reflexivity|]. cbn.
  unfold ret. rewrite land_pow2_zero by lia. now rewrite negb_involutive.
Qed.

(** Writing a bit: read, modify, write back; only bit [k] of the register
    can change. *)
Lemma RWBit_set_run (addr k : Z) (dev : I2CDevice) (value : bool) (w : world) :
  0 <= k < 8 -> byte_regs w ->
  i2c_bit.set (i2c_bit.RWBit_init addr k) dev value w =
  let e1 := WriteThenReadInto (device_address dev) [addr] 1 in
  let b' := with_bit (regs w addr) k value in
  let e2 := WriteTo (device_address dev) [addr; b'] in
  match faults w with
  | true :: _ => (Raise OSError, issue e1 w)
  | _ :: true :: _ => (Raise OSError, issue e2 (issue e1 w))
  | _ => (Ok tt, with_regs (upd (regs w) addr b') (issue e2 (issue e1 w)))
  end.
Proof.
  intros Hk Hw. rewrite RWBit_init_small by assumption.
  unfold i2c_bit.set, bind, write_then_readinto, next_fault. cbn.
  assert (is_byte (with_bit (regs w addr) k value) = true) as Hb
    by (apply is_byte_iff, with_bit_byte; auto).
  unfold with_bit in *.
  rewrite <- lor_pow2_setbit, <- land_lnot_pow2_clearbit in *.
  unfold getitem, setitem, ret, raise, write, next_fault. cbn.
  destruct (faults w) as [|f1 fs] eqn:F; [|destruct f1]; cbn;
    try reflexivity; rewrite Hb; cbn; autorewrite with world; rewrite F; cbn;
    [reflexivity | destruct fs as [|[] ?]; reflexivity].
Qed.

(** ** Multi-bit fields on the bus *)

Lemma land_255_byte (x : Z) : 0 <= Z.land x 0xFF < 256.
Proof.
  change 0xFF with (Z.ones 8). rewrite Z.land_ones by lia.
  change (2 ^ 8) with 256. apply Z.mod_pos_bound. lia.
Qed.

Lemma RWBits_get_run (n addr lo : Z) (dev : I2CDevice) (w : world) :
  i2c_bits.get (i2c_bits.RWBits_init n addr lo) dev w =
  let w1 := issue (WriteThenReadInto (device_address dev) [addr] 1) w in
  if next_fault w then (Raise OSError, w1)
  else (Ok (extract (i2c_bits.bit_mask (i2c_bits.RWBits_init n addr lo)) lo
              (regs w addr)), w1).
Proof.
  unfold i2c_bits.get, bind, write_then_readinto. cbn.
  destruct (next_fault w); [reflexivity|]. cbn.
  unfold ret. now rewrite Z.land_0_r.
Qed.

Lemma RWBits_set_run (n addr lo : Z) (dev : I2CDevice) (value : Z) (w : world) :
  i2c_bits.set (i2c_bits.RWBits_init n addr lo) dev value w =
  let e1 := WriteThenReadInto (device_address dev) [addr] 1 in
  let b' := splice (i2c_bits.bit_mask (i2c_bits.RWBits_init n addr lo)) lo
              (regs w addr) value in
  let e2 := WriteTo (device_address dev) [addr; b'] in
  match faults w with
  | true :: _ => (Raise OSError, issue e1 w)
  | _ :: true :: _ => (Raise OSError, issue e2 (issue e1 w))
  | _ => (Ok tt, with_regs (upd (regs w) addr b') (issue e2 (issue e1 w)))
  end.
Proof.
  unfold i2c_bits.set, bind, write_then_readinto, splice.
  unfold getitem, setitem, ret, raise, write, next_fault. cbn.
  assert (forall x, is_byte (Z.land x 255) = true) as Hb
    by (intros x; apply is_byte_iff, land_255_byte).
  destruct (faults w) as [|f1 fs] eqn:F; [|destruct f1]; cbn;
    try reflexivity; rewrite Hb; cbn; autorewrite with world; rewrite F; cbn;
    [reflexivity | destruct fs as [|[] ?]; reflexivity].
Qed.

(** ** The BCD date/time block on the bus *)

Lemma store_run_bytes (data : list Z) :
  forall (f : Z -> Z) (a : Z),
    byte_file f -> forallb is_byte data = true -> byte_file (store_run f a data).
Proof.
  induction data as [|d rest IH]; intros f a Hf Hd; cbn in *; [assumption|].
  apply andb_true_iff in Hd as [Hd Hrest].
  apply IH; [|assumption].
  intros x. unfold upd. destruct (x =? a); [now apply is_byte_iff | apply Hf].
Qed.

Lemma store_run_before (data : list Z) :
  forall (f : Z -> Z) (a x : Z), x < a -> store_run f a data x = f x.
Proof.
  induction data as [|d rest IH]; intros f a x Hx; cbn; [reflexivity|].
  rewrite IH by lia. apply upd_other. lia.
Qed.

Lemma store_run_after (data : list Z) :
  forall (f : Z -> Z) (a x : Z),
    a + Z.of_nat (length data) <= x -> store_run f a data x = f x.
Proof.
  induction data as [|d rest IH]; intros f a x Hx; cbn [store_run]; [reflexivity|].
  cbn [length] in Hx. rewrite IH by lia. apply upd_other. lia.
Qed.

(** Writing the block: the seven stores are checked first, in the order
    seconds, minutes, hours, weekday, day, month, year; only then is the one
    write transaction issued. *)
Lemma BCD_set_run (dev : I2CDevice) (value : struct_time) (w : world) :
  i2c_bcd_datetime.set PCF85263A.datetime_register dev value w =
  if storable value then
    let e := WriteTo (device_address dev) (0x01 :: datetime_bytes value) in
    if next_fault w then (Raise OSError, issue e w)
    else (Ok tt, with_regs (block_stored value (regs w)) (issue e w))
  else (Raise ValueError, w).
Proof.
  unfold i2c_bcd_datetime.set, storable, block_stored, datetime_bytes, bind, setitem.
  cbn -[is_byte Z.land Z.add Z.sub i2c_bcd_datetime._bin2bcd].
  destruct (is_byte (Z.land _ _)); cbn -[is_byte Z.land Z.add Z.sub i2c_bcd_datetime._bin2bcd];
    [|reflexivity].
  destruct (is_byte (_ (tm_min value))); cbn -[is_byte Z.land Z.add Z.sub i2c_bcd_datetime._bin2bcd];
    [|reflexivity].
  destruct (is_byte (_ (tm_hour value))); cbn -[is_byte Z.land Z.add Z.sub i2c_bcd_datetime._bin2bcd];
    [|reflexivity].
  destruct (is_byte (_ (tm_wday value + 0))), (is_byte (_ (tm_mday value)));
    cbn -[is_byte Z.land Z.add Z.sub i2c_bcd_datetime._bin2bcd]; try reflexivity.
  destruct (is_byte (_ (tm_mon value))); cbn -[is_byte Z.land Z.add Z.sub i2c_bcd_datetime._bin2bcd];
    [|reflexivity].
  destruct (is_byte (_ (tm_year value - 2000))); cbn -[is_byte Z.land Z.add Z.sub i2c_bcd_datetime._bin2bcd];
    [|reflexivity].
  unfold write. destruct (next_fault w); reflexivity.
Qed.

(** Reading the block: one transaction of seven bytes, decoded. *)
Lemma BCD_get_run (dev : I2CDevice) (w : world) :
  i2c_bcd_datetime.get PCF85263A.datetime_register dev w =
  let w1 := issue (WriteThenReadInto (device_address dev) [0x01] 7) w in
  if next_fault w then (Raise OSError, w1)
  else (Ok (decoded (regs w)), w1).
Proof.
  unfold i2c_bcd_datetime.get, bind, write_then_readinto. cbn.
  destruct (next_fault w); reflexivity.
Qed.

(** ** The [datetime] setter *)

(** Where a run of the setter ends, by the first refused transaction. *)
Lemma datetime_setter_run (value : struct_time) (w : world) :
  byte_regs w ->
  PCF85263A.datetime_setter rtc value w =
  if storable value then
    let f1 := block_stored value (regs w) in
    let w1 := issue (WriteTo 0x51 (0x01 :: datetime_bytes value)) w in
    let w2 := issue (WriteThenReadInto 0x51 [0x01] 1) (with_regs f1 w1) in
    let w3 := issue (WriteTo 0x51 [0x01; with_bit (f1 0x01) 7 false]) w2 in
    match faults w with
    | true :: _ => (Raise OSError, w1)
    | _ :: true :: _ => (Raise OSError, w2)
    | _ :: _ :: true :: _ => (Raise OSError, w3)
    | _ => (Ok tt, with_regs (flag_cleared f1) w3)
    end
  else (Raise ValueError, w).
Proof.
  intros Hw. unfold PCF85263A.datetime_setter, bind.
  rewrite BCD_set_run. destruct (storable value) eqn:Hs; [|reflexivity].
  cbn zeta. unfold next_fault.
  destruct (faults w) as [|f1 fs] eqn:F; [|destruct f1]; cbn [hd];
    try reflexivity.
  - unfold PCF85263A.datetime_compromised.
    rewrite RWBit_set_run; [|lia|apply store_run_bytes; assumption].
    autorewrite with world. rewrite F. reflexivity.
  - unfold PCF85263A.datetime_compromised.
    rewrite RWBit_set_run; [|lia|apply store_run_bytes; assumption].
    autorewrite with world. rewrite F. cbn [tl].
    destruct fs as [|[] [|[] ?]]; reflexivity.
Qed.

(** On a bus that refuses nothing the setter succeeds for every storable
    value. *)
Lemma datetime_setter_fault_free (value : struct_time) (w : world) :
  byte_regs w -> fault_free w -> storable value = true ->
  PCF85263A.datetime_setter rtc value w =
  (Ok tt,
   with_regs (flag_cleared (block_stored value (regs w)))
     (issue (WriteTo 0x51 [0x01; with_bit (block_stored value (regs w) 0x01) 7 false])
        (issue (WriteThenReadInto 0x51 [0x01] 1)
           (with_regs (block_stored value (regs w))
              (issue (WriteTo 0x51 (0x01 :: datetime_bytes value)) w))))).
Proof.
  intros Hw Hf Hs. rewrite datetime_setter_run by assumption.
  rewrite Hs. cbn zeta. now rewrite Hf.
Qed.

(** What a successful run of the setter leaves behind. *)
Lemma datetime_setter_ok (value : struct_time) (w w' : world) :
  byte_regs w ->
  PCF85263A.datetime_setter rtc value w = (Ok tt, w') ->
  storable value = true /\
  regs w' = flag_cleared (block_stored value (regs w)) /\
  trace w' = trace w ++ setter_events value (regs w) /\
  faults w' = tl (tl (tl (faults w))).
Proof.
  intros Hw. rewrite datetime_setter_run by assumption.
  destruct (storable value); [|discriminate].
  cbn zeta.
  destruct (faults w) as [|[] [|[] [|[] ?]]] eqn:F; try discriminate;
    intros H; injection H as <-; autorewrite with world; rewrite F;
    rewrite <- !app_assoc; repeat split; reflexivity.
Qed.

(** The setter keeps every register a byte. *)
Lemma datetime_setter_keeps_bytes (value : struct_time) (w w' : world) :
  byte_regs w ->
  PCF85263A.datetime_setter rtc value w = (Ok tt, w') ->
  byte_regs w'.
Proof.
  intros Hw Hrun.
  destruct (datetime_setter_ok value w w' Hw Hrun) as (Hs & Hr & _).
  unfold byte_regs. rewrite Hr.
  assert (byte_file (block_stored value (regs w))) as Hb
    by (apply store_run_bytes; assumption).
  intros a. unfold flag_cleared, upd.
  destruct (a =? 1); [|apply Hb].
  apply with_bit_byte; [apply Hb | lia].
Qed.

(** ** Valid values are storable and survive the codec *)

Lemma bin2bcd_byte (x : Z) : 0 <= x <= 99 -> is_byte (i2c_bcd_datetime._bin2bcd x) = true.
Proof.
  intros Hx.
  pose proof (all_bytes_sound
                (fun x => (99 <? x) || is_byte (i2c_bcd_datetime._bin2bcd x))
                eq_refl x ltac:(lia)) as H.
  cbv beta in H. apply orb_true_iff in H as [H|H]; [|assumption].
  apply Z.ltb_lt in H. lia.
Qed.

Lemma land_127_byte (x : Z) : is_byte (Z.land x 0x7F) = true.
Proof.
  apply is_byte_iff. change 0x7F with (Z.ones 7). rewrite Z.land_ones by lia.
  pose proof (Z.mod_pos_bound x (2 ^ 7) ltac:(lia)). change (2 ^ 7) with 128 in *. lia.
Qed.

Lemma bcd_round_trip (x : Z) :
  0 <= x <= 99 -> i2c_bcd_datetime._bcd2bin (i2c_bcd_datetime._bin2bcd x) = x.
Proof.
  intros Hx.
  pose proof (all_bytes_sound
                (fun x => (99 <? x) ||
                          (i2c_bcd_datetime._bcd2bin (i2c_bcd_datetime._bin2bcd x) =? x))
                eq_refl x ltac:(lia)) as H.
  cbv beta in H. apply orb_true_iff in H as [H|H]; [apply Z.ltb_lt in H; lia|].
  now apply Z.eqb_eq.
Qed.

(** Seconds pass through the two masks and the cleared flag unharmed. *)
Lemma seconds_round_trip (x : Z) :
  0 <= x <= 59 ->
  i2c_bcd_datetime._bcd2bin
    (Z.land (with_bit (Z.land (i2c_bcd_datetime._bin2bcd x) 0x7F) 7 false) 0x7F) = x.
Proof.
  intros Hx.
  pose proof (all_bytes_sound
                (fun x => (59 <? x) ||
                          (i2c_bcd_datetime._bcd2bin
                             (Z.land (with_bit (Z.land (i2c_bcd_datetime._bin2bcd x) 0x7F) 7 false) 0x7F)
                           =? x))
                eq_refl x ltac:(lia)) as H.
  cbv beta in H. apply orb_true_iff in H as [H|H]; [apply Z.ltb_lt in H; lia|].
  now apply Z.eqb_eq.
Qed.

Lemma valid_datetime_bounds (v : struct_time) :
  valid_datetime v = true ->
  0 <= tm_year v - 2000 <= 99 /\ 1 <= tm_mon v <= 12 /\ 1 <= tm_mday v <= 31 /\
  0 <= tm_wday v <= 6 /\ 0 <= tm_hour v <= 23 /\ 0 <= tm_min v <= 59 /\
  0 <= tm_sec v <= 59.
Proof.
  unfold valid_datetime. rewrite !andb_true_iff, !Z.leb_le. lia.
Qed.

Lemma valid_storable (v : struct_time) : valid_datetime v = true -> storable v = true.
Proof.
  intros H. apply valid_datetime_bounds in H.
  unfold storable, datetime_bytes. cbn [forallb].
  rewrite land_127_byte, !bin2bcd_byte by lia. reflexivity.
Qed.

(** The registers of the block after a successful assignment. *)
Lemma registers_after_setter (v : struct_time) (f : Z -> Z) :
  let g := flag_cleared (block_stored v f) in
  g 1 = with_bit (Z.land (i2c_bcd_datetime._bin2bcd (tm_sec v)) 0x7F) 7 false /\
  g 2 = i2c_bcd_datetime._bin2bcd (tm_min v) /\
  g 3 = i2c_bcd_datetime._bin2bcd (tm_hour v) /\
  g 4 = i2c_bcd_datetime._bin2bcd (tm_mday v) /\
  g 5 = i2c_bcd_datetime._bin2bcd (tm_wday v + 0) /\
  g 6 = i2c_bcd_datetime._bin2bcd (tm_mon v) /\
  g 7 = i2c_bcd_datetime._bin2bcd (tm_year v - 2000) /\
  forall a, a < 1 \/ 7 < a -> g a = f a.
Proof.
  cbv zeta. unfold flag_cleared, block_stored, datetime_bytes.
  repeat split; try reflexivity.
  intros a Ha. rewrite upd_other by lia.
  destruct Ha; [apply store_run_before | apply store_run_after]; cbn; lia.
Qed.

Lemma land_127_idem_early (x : Z) : Z.land (Z.land x 0x7F) 0x7F = Z.land x 0x7F.
Proof. rewrite <- Z.land_assoc. reflexivity. Qed.

(** A field no larger than [hi] survives encoding, the getter's mask and
    decoding, when that is so for each such byte. *)
Lemma masked_round_trip (mask hi x : Z) :
  all_bytes (fun x => (hi <? x) ||
                      (i2c_bcd_datetime._bcd2bin
                         (Z.land (i2c_bcd_datetime._bin2bcd x) mask) =? x)) = true ->
  0 <= x <= hi -> hi < 256 ->
  i2c_bcd_datetime._bcd2bin (Z.land (i2c_bcd_datetime._bin2bcd x) mask) = x.
Proof.
  intros Hall Hx Hhi.
  pose proof (all_bytes_sound _ Hall x ltac:(lia)) as H.
  cbv beta in H. apply orb_true_iff in H as [H|H]; [apply Z.ltb_lt in H; lia|].
  now apply Z.eqb_eq.
Qed.

(** The bytes of a valid value decode to the value, masks included. *)
Lemma valid_bytes_decode (v : struct_time) :
  valid_datetime v = true ->
  i2c_bcd_datetime._bcd2bin (i2c_bcd_datetime._bin2bcd (tm_year v - 2000)) + 2000
    = tm_year v
  /\ i2c_bcd_datetime._bcd2bin (Z.land (i2c_bcd_datetime._bin2bcd (tm_mon v)) 0x1F)
     = tm_mon v
  /\ i2c_bcd_datetime._bcd2bin (Z.land (i2c_bcd_datetime._bin2bcd (tm_mday v)) 0x3F)
     = tm_mday v
  /\ i2c_bcd_datetime._bcd2bin
       (Z.land (i2c_bcd_datetime._bin2bcd (tm_wday v + 0)) 0x07 - 0) = tm_wday v
  /\ i2c_bcd_datetime._bcd2bin (Z.land (i2c_bcd_datetime._bin2bcd (tm_hour v)) 0x3F)
     = tm_hour v
  /\ i2c_bcd_datetime._bcd2bin (Z.land (i2c_bcd_datetime._bin2bcd (tm_min v)) 0x7F)
     = tm_min v.
Proof.
  intros H. apply valid_datetime_bounds in H.
  rewrite Z.add_0_r, Z.sub_0_r, bcd_round_trip by lia.
  rewrite (masked_round_trip 0x1F 12), (masked_round_trip 0x3F 31),
    (masked_round_trip 0x07 6), (masked_round_trip 0x3F 23),
    (masked_round_trip 0x7F 59) by (reflexivity || lia).
  repeat split; lia.
Qed.

(** Decoding what the setter stored gives the value back. *)
Lemma decoded_after_setter (v : struct_time) (f : Z -> Z) :
  valid_datetime v = true ->
  same_fields (decoded (flag_cleared (block_stored v f))) v.
Proof.
  intros H.
  destruct (valid_bytes_decode v H) as (Vy & Vm & Vd & Vw & Vh & Vn).
  apply valid_datetime_bounds in H.
  destruct (registers_after_setter v f) as (H1 & H2 & H3 & H4 & H5 & H6 & H7 & _).
  unfold same_fields, decoded. cbn [tm_year tm_mon tm_mday tm_wday tm_hour tm_min tm_sec].
  rewrite H1, H2, H3, H4, H5, H6, H7.
  rewrite seconds_round_trip by lia.
  repeat split; assumption.
Qed.

(** Decoding the block as written, before the flag step, gives it back too. *)
Lemma decoded_block_stored (v : struct_time) (f : Z -> Z) :
  valid_datetime v = true ->
  same_fields (decoded (block_stored v f)) v.
Proof.
  intros H.
  destruct (valid_bytes_decode v H) as (Vy & Vm & Vd & Vw & Vh & Vn).
  apply valid_datetime_bounds in H.
  unfold same_fields, decoded, block_stored, datetime_bytes.
  cbn [tm_year tm_mon tm_mday tm_wday tm_hour tm_min tm_sec].
  change (store_run f 1 ?l 1) with (Z.land (i2c_bcd_datetime._bin2bcd (tm_sec v)) 0x7F).
  change (store_run f 1 ?l 2) with (i2c_bcd_datetime._bin2bcd (tm_min v)).
  change (store_run f 1 ?l 3) with (i2c_bcd_datetime._bin2bcd (tm_hour v)).
  change (store_run f 1 ?l 4) with (i2c_bcd_datetime._bin2bcd (tm_mday v)).
  change (store_run f 1 ?l 5) with (i2c_bcd_datetime._bin2bcd (tm_wday v + 0)).
  change (store_run f 1 ?l 6) with (i2c_bcd_datetime._bin2bcd (tm_mon v)).
  change (store_run f 1 ?l 7) with (i2c_bcd_datetime._bin2bcd (tm_year v - 2000)).
  rewrite land_127_idem_early.
  rewrite (masked_round_trip 0x7F 59 (tm_sec v)) by (reflexivity || lia).
  repeat split; assumption.
Qed.

(** ** The sample worlds *)

Lemma sample_bytes : byte_regs sample.
Proof.
  intros a. cbn. unfold sample_regs.
  repeat match goal with |- context [if ?c then _ else _] => destruct c end; lia.
Qed.

Lemma blank_bytes : byte_regs blank.
Proof. intros a. cbn. lia. Qed.

(** * The driver's contract *)

(** ** Construction *)

(** Where a run of the constructor ends, by the transactions refused. *)
Lemma init_run (w : world) :
  PCF85263A.__init__ w =
    let w0 := issue (WriteTo 0x51 []) (log (Sleep 50) w) in
    let w1 := issue (ReadFromInto 0x51 1) w0 in
    if refused 0 w then
      if refused 1 w then (Raise ValueError, w1)
      else (if refused 2 w then Raise OSError else Ok rtc,
            issue (WriteThenReadInto 0x51 [0x12] 1) w1)
    else (if refused 1 w then Raise OSError else Ok rtc,
          issue (WriteThenReadInto 0x51 [0x12] 1) w0).
Proof.
  unfold PCF85263A.__init__, I2CDevice_init, __probe_for_device, except_OSError,
    readfrom_into, write, bind, sleep, setitem, write_then_readinto, raise, ret,
    refused, next_fault, rtc.
  destruct w as [r t fs]. destruct fs as [|[] [|[] [|[] ?]]]; reflexivity.
Qed.

(** C7, as stated, fails: the 0x12 read is not the only transaction and not
    the only way to fail.  Making the device handle probes the address first;
    on a bus where nothing answers, construction raises [ValueError] after
    the two probes and register 0x12 is never read.  On a healthy bus the
    probe write comes before the 0x12 read. *)
Lemma absent_device_fails_before_0x12 :
  fst (PCF85263A.__init__ absent) = Raise ValueError
  /\ trace (snd (PCF85263A.__init__ absent)) =
       [Sleep 50; WriteTo 0x51 []; ReadFromInto 0x51 1]
  /\ fst (PCF85263A.__init__ sample) = Ok rtc
  /\ trace (snd (PCF85263A.__init__ sample)) =
       [Sleep 50; WriteTo 0x51 []; WriteThenReadInto 0x51 [0x12] 1].
Proof. repeat split; reflexivity. Qed.

(** C7, amended: constructing the driver sleeps 50 ms, then makes the device
    handle at address 0x51, which probes the address (a zero-length write
    and, if that is refused, a one-byte read) and raises [ValueError] when
    neither is acknowledged; once the probe is acknowledged it issues one
    write-address-then-read transaction of register 0x12.  The byte read
    back takes no part in the outcome: construction returns the driver
    whatever the chip's registers hold, and otherwise fails only with the
    transport's [OSError], exactly when the 0x12 transaction is refused.  No
    register is written. *)
Theorem init_probes_then_reads_0x12 (w : world) :
  PCF85263A.__init__ w =
    (let w0 := issue (WriteTo 0x51 []) (log (Sleep 50) w) in
     let w1 := issue (ReadFromInto 0x51 1) w0 in
     if refused 0 w then
       if refused 1 w then (Raise ValueError, w1)
       else (if refused 2 w then Raise OSError else Ok rtc,
             issue (WriteThenReadInto 0x51 [0x12] 1) w1)
     else (if refused 1 w then Raise OSError else Ok rtc,
           issue (WriteThenReadInto 0x51 [0x12] 1) w0))
  /\ (forall f : Z -> Z,
        fst (PCF85263A.__init__ (with_regs f w)) = fst (PCF85263A.__init__ w))
  /\ regs (snd (PCF85263A.__init__ w)) = regs w.
Proof.
  split; [apply init_run|]. split.
  - intros f. rewrite !init_run. cbv zeta.
    change (refused 0 (with_regs f w)) with (refused 0 w).
    change (refused 1 (with_regs f w)) with (refused 1 w).
    change (refused 2 (with_regs f w)) with (refused 2 w).
    destruct (refused 0 w), (refused 1 w), (refused 2 w); reflexivity.
  - rewrite init_run. cbv zeta.
    destruct (refused 0 w), (refused 1 w); reflexivity.
Qed.

(** ** Writing the date and time *)

(** C1: assigning [datetime] writes the BCD block from register 0x01 and then
    clears bit 7 of register 0x01.  For a valid value the assignment succeeds
    on a bus that refuses nothing; and whenever both steps have succeeded the
    trace shows the block write followed by the read-modify-write of the flag,
    bit 7 of register 0x01 is 0, and a following read of
    [datetime_compromised] answers false. *)
Theorem datetime_setter_clears_compromised (value : struct_time) (w : world) :
  byte_regs w -> valid_datetime value = true ->
  (fault_free w -> exists w', PCF85263A.datetime_setter rtc value w = (Ok tt, w'))
  /\ (forall w', PCF85263A.datetime_setter rtc value w = (Ok tt, w') ->
        trace w' = trace w ++ setter_events value (regs w)
        /\ Z.testbit (regs w' 0x01) 7 = false
        /\ fst (i2c_bit.get PCF85263A.datetime_compromised
                  (PCF85263A.i2c_device rtc) w')
           = if next_fault w' then Raise OSError else Ok false).
Proof.
  intros Hw Hv. split.
  - intros Hf. eexists. apply datetime_setter_fault_free; auto using valid_storable.
  - intros w' Hrun.
    destruct (datetime_setter_ok value w w' Hw Hrun) as (_ & Hr & Ht & _).
    assert (Z.testbit (regs w' 0x01) 7 = false) as Hbit.
    { rewrite Hr. unfold flag_cleared. rewrite upd_same.
      rewrite with_bit_spec by lia. reflexivity. }
    repeat split; [assumption | assumption |].
    unfold PCF85263A.datetime_compromised. rewrite RWBit_get_run by lia.
    cbn zeta. rewrite Hbit. destruct (next_fault w'); reflexivity.
Qed.

Lemma datetime_setter_clears_compromised_witness :
  fst (i2c_bit.get PCF85263A.datetime_compromised (PCF85263A.i2c_device rtc)
         (snd (PCF85263A.datetime_setter rtc friday sample))) = Ok false.
Proof.
  destruct (datetime_setter_clears_compromised friday sample sample_bytes eq_refl)
    as [_ H].
  destruct (H (snd (PCF85263A.datetime_setter rtc friday sample)) eq_refl)
    as (_ & _ & G).
  exact G.
Defined.

(** C2, as stated, fails: a seconds field of 60 is outside the DateTime
    domain, yet the assignment raises nothing.  The block is written with
    seconds byte 0x60 over the 0x80 the register held, in three
    transactions. *)
Lemma second_60_is_written :
  valid_datetime leap = false
  /\ fst (PCF85263A.datetime_setter rtc leap sample) = Ok tt
  /\ regs sample 0x01 = 0x80
  /\ regs (snd (PCF85263A.datetime_setter rtc leap sample)) 0x01 = 0x60
  /\ trace (snd (PCF85263A.datetime_setter rtc leap sample)) =
       [ WriteTo 0x51 [0x01; 0x60; 0x30; 0x14; 0x15; 0x04; 0x03; 0x24];
         WriteThenReadInto 0x51 [0x01] 1;
         WriteTo 0x51 [0x01; 0x60] ].
Proof. repeat split; reflexivity. Qed.

(** C2, amended: the assignment checks no field against its calendar domain.
    What it rejects before any bus transaction is a value one of whose BCD
    bytes does not fit in a byte: the assignment then raises [ValueError] and
    the world (registers, trace, pending faults) is exactly as before.  A
    value all of whose bytes fit is not rejected: on a bus that refuses
    nothing the block is written as encoded. *)
Theorem unstorable_datetime_rejected_before_bus (value : struct_time) (w : world) :
  (storable value = false ->
     PCF85263A.datetime_setter rtc value w = (Raise ValueError, w))
  /\ (storable value = true -> byte_regs w -> fault_free w ->
        exists w', PCF85263A.datetime_setter rtc value w = (Ok tt, w')
                   /\ regs w' = flag_cleared (block_stored value (regs w))
                   /\ trace w' = trace w ++ setter_events value (regs w)).
Proof.
  split.
  - intros Hs. unfold PCF85263A.datetime_setter, bind.
    rewrite BCD_set_run. now rewrite Hs.
  - intros Hs Hw Hf. eexists. split.
    + apply datetime_setter_fault_free; assumption.
    + autorewrite with world. rewrite <- !app_assoc. split; reflexivity.
Qed.

Lemma unstorable_datetime_rejected_before_bus_witness :
  storable overlong = false
  /\ PCF85263A.datetime_setter rtc overlong sample = (Raise ValueError, sample)
  /\ storable leap = true
  /\ exists w', PCF85263A.datetime_setter rtc leap sample = (Ok tt, w').
Proof.
  split; [reflexivity|]. split.
  - apply (unstorable_datetime_rejected_before_bus overlong sample). reflexivity.
  - split; [reflexivity|].
    destruct (unstorable_datetime_rejected_before_bus leap sample) as [_ H].
    destruct (H eq_refl sample_bytes eq_refl) as (w' & E & _).
    exists w'. exact E.
Defined.

(** C3: for every valid DateTime value (two-digit year counted from 2000,
    month 1-12, day 1-31, weekday 0-6, hour 0-23, minute 0-59, second 0-59)
    the seven-byte block decodes back to the value; assigning [datetime] and
    then reading [datetime] returns the same seven fields.  On a bus that
    refuses nothing both steps succeed. *)
Theorem datetime_round_trip (value : struct_time) (w : world) :
  byte_regs w -> valid_datetime value = true ->
  same_fields (decoded (block_stored value (regs w))) value
  /\ (fault_free w ->
        exists w1 w2 r,
          PCF85263A.datetime_setter rtc value w = (Ok tt, w1)
          /\ PCF85263A.datetime rtc w1 = (Ok r, w2))
  /\ (forall w1 w2 r,
        PCF85263A.datetime_setter rtc value w = (Ok tt, w1) ->
        PCF85263A.datetime rtc w1 = (Ok r, w2) ->
        same_fields r value).
Proof.
  intros Hw Hv. split; [|split].
  - now apply decoded_block_stored.
  - intros Hf.
    pose proof (datetime_setter_fault_free value w Hw Hf (valid_storable value Hv)) as E.
    eexists. eexists. eexists. split; [exact E|].
    unfold PCF85263A.datetime. rewrite BCD_get_run. cbn zeta.
    unfold next_fault. autorewrite with world. rewrite Hf. reflexivity.
  - intros w1 w2 r Hset Hget.
    destruct (datetime_setter_ok value w w1 Hw Hset) as (_ & Hr & _).
    unfold PCF85263A.datetime in Hget. rewrite BCD_get_run in Hget. cbn zeta in Hget.
    destruct (next_fault w1); [discriminate|].
    injection Hget as <- _. rewrite Hr. now apply decoded_after_setter.
Qed.

Lemma datetime_round_trip_witness :
  exists w2 r,
    PCF85263A.datetime rtc (snd (PCF85263A.datetime_setter rtc friday sample))
      = (Ok r, w2)
    /\ same_fields r friday.
Proof.
  destruct (datetime_round_trip friday sample sample_bytes eq_refl) as (_ & _ & H).
  eexists. eexists. split; [reflexivity|].
  eapply H; reflexivity.
Defined.

(** ** Reading the date and time *)

Lemma seconds_mask_hides_flag (b : Z) (flag : bool) :
  Z.land (with_bit b 7 flag) 0x7F = Z.land b 0x7F.
Proof.
  apply Z.bits_inj'. intros j Hj.
  rewrite !Z.land_spec, with_bit_spec by lia.
  destruct (Z.eqb_spec 7 j) as [<-|]; [|reflexivity].
  change (Z.testbit 0x7F 7) with false. now rewrite !andb_false_r.
Qed.

Lemma bcd2bin_two_digits (m : Z) : i2c_bcd_datetime._bcd2bin m = two_digits m.
Proof.
  unfold i2c_bcd_datetime._bcd2bin, two_digits.
  rewrite Z.shiftr_div_pow2 by lia. change (2 ^ 4) with 16.
  pose proof (Z.div_mod m 16 ltac:(lia)). lia.
Qed.

Lemma land_7_range (x : Z) : 0 <= Z.land x 0x07 < 8.
Proof.
  change 0x07 with (Z.ones 3). rewrite Z.land_ones by lia.
  change (2 ^ 3) with 8. apply Z.mod_pos_bound. lia.
Qed.

(** What the getter returns is what the registers say, digit by digit. *)
Lemma decoded_reads_digits (f : Z -> Z) : reads_digits f (decoded f).
Proof.
  unfold reads_digits, decoded.
  cbn [tm_year tm_mon tm_mday tm_wday tm_hour tm_min tm_sec tm_yday tm_isdst].
  rewrite !bcd2bin_two_digits, Z.sub_0_r.
  repeat split; try lia.
  unfold two_digits. pose proof (land_7_range (f 5)).
  rewrite Z.div_small, Z.mod_small by lia. lia.
Qed.

(** C10: reading [datetime] is one read transaction of the seven bytes from
    register 0x01.  Unless the bus refuses it, it returns the date and time
    the registers spell out: each field is ten times the high digit plus the
    low digit of its register (masked to the field's bits), the year counted
    from 2000.  Every register is as it was after the read, so the
    compromised flag is not cleared; and the value returned is the same
    whichever way the flag (bit 7 of register 0x01) stands, so the flag is
    not looked at. *)
Theorem datetime_getter_leaves_chip_alone (w : world) :
  snd (PCF85263A.datetime rtc w) = issue (WriteThenReadInto 0x51 [0x01] 7) w
  /\ regs (snd (PCF85263A.datetime rtc w)) = regs w
  /\ (if next_fault w then fst (PCF85263A.datetime rtc w) = Raise OSError
      else exists r, fst (PCF85263A.datetime rtc w) = Ok r
                     /\ reads_digits (regs w) r)
  /\ (forall flag : bool,
        fst (PCF85263A.datetime rtc
               (with_regs (upd (regs w) 0x01 (with_bit (regs w 0x01) 7 flag)) w))
        = fst (PCF85263A.datetime rtc w)).
Proof.
  assert (forall w0, PCF85263A.datetime rtc w0 =
            (if next_fault w0 then Raise OSError else Ok (decoded (regs w0)),
             issue (WriteThenReadInto 0x51 [0x01] 7) w0)) as E.
  { intros w0. unfold PCF85263A.datetime. rewrite BCD_get_run. cbn zeta.
    destruct (next_fault w0); reflexivity. }
  split; [rewrite E; reflexivity|]. split; [rewrite E; reflexivity|]. split.
  - rewrite E. cbn [fst]. destruct (next_fault w); [reflexivity|].
    eexists. split; [reflexivity | apply decoded_reads_digits].
  - intros flag. rewrite !E. cbn [fst].
    change (next_fault (with_regs _ w)) with (next_fault w).
    destruct (next_fault w); [reflexivity|]. f_equal.
    autorewrite with world. unfold decoded. cbn [upd Z.eqb Pos.eqb].
    now rewrite seconds_mask_hides_flag.
Qed.

Lemma datetime_getter_leaves_chip_alone_witness :
  exists r,
    fst (PCF85263A.datetime rtc running) = Ok r
    /\ same_fields r friday
    /\ regs (snd (PCF85263A.datetime rtc running)) 0x01 = 0xC5.
Proof.
  destruct (datetime_getter_leaves_chip_alone running) as (_ & R & D & _).
  destruct D as (r & E & G).
  exists r. split; [exact E|]. split; [|rewrite R; reflexivity].
  destruct G as (G1 & G2 & G3 & G4 & G5 & G6 & G7 & _).
  unfold same_fields. rewrite G1, G2, G3, G4, G5, G6, G7.
  repeat split.
Defined.

(** ** The alarm-interrupt bit lives in the seconds byte *)

Lemma seconds_bit1 (s : Z) :
  Z.testbit (with_bit (Z.land (i2c_bcd_datetime._bin2bcd s) 0x7F) 7 false) 1
  = Z.testbit (i2c_bcd_datetime._bin2bcd s) 1.
Proof.
  rewrite with_bit_spec by lia. cbn [Z.eqb Pos.eqb].
  rewrite Z.land_spec. change (Z.testbit 0x7F 1) with true. apply andb_true_r.
Qed.

Lemma seconds_shift_by_bit1 (b : Z) (on : bool) :
  0 <= b < 256 ->
  i2c_bcd_datetime._bcd2bin (Z.land (with_bit b 1 on) 0x7F) =
  i2c_bcd_datetime._bcd2bin (Z.land b 0x7F)
  + (if Bool.eqb on (Z.testbit b 1) then 0 else if on then 2 else -2).
Proof.
  intros Hb.
  pose proof (all_bytes_sound
                (fun b =>
                   forallb (fun on =>
                     i2c_bcd_datetime._bcd2bin (Z.land (with_bit b 1 on) 0x7F) =?
                     i2c_bcd_datetime._bcd2bin (Z.land b 0x7F)
                     + (if Bool.eqb on (Z.testbit b 1) then 0 else if on then 2 else -2))
                     [true; false])
                eq_refl b Hb) as H.
  cbv beta in H. cbn [forallb] in H.
  apply andb_true_iff in H as [Ht H]. apply andb_true_iff in H as [Hf _].
  destruct on; now apply Z.eqb_eq.
Qed.

(** C6: [alarm_interrupt] is bit 1 of register 0x01, the byte that holds the
    BCD seconds and the compromised flag.  After a successful assignment of
    [datetime], reading [alarm_interrupt] answers bit 1 of the encoded
    seconds, whatever it was before.  Assigning [alarm_interrupt] rewrites the
    seconds byte with bit 1 replaced; the seconds then decoded move by 2 up
    or down exactly when the new bit differs from the old one. *)
Theorem alarm_interrupt_shares_seconds_byte
    (value : struct_time) (on : bool) (w : world) :
  byte_regs w ->
  (forall w', PCF85263A.datetime_setter rtc value w = (Ok tt, w') ->
     reads_bit PCF85263A.alarm_interrupt 0x01 1 w'
     /\ Z.testbit (regs w' 0x01) 1 = Z.testbit (i2c_bcd_datetime._bin2bcd (tm_sec value)) 1)
  /\ (fault_free w ->
        exists w',
          i2c_bit.set PCF85263A.alarm_interrupt (PCF85263A.i2c_device rtc) on w
            = (Ok tt, w')
          /\ regs w' = upd (regs w) 0x01 (with_bit (regs w 0x01) 1 on)
          /\ tm_sec (decoded (regs w')) =
               tm_sec (decoded (regs w))
               + (if Bool.eqb on (Z.testbit (regs w 0x01) 1) then 0
                  else if on then 2 else -2)).
Proof.
  intros Hw. split.
  - intros w' Hrun.
    destruct (datetime_setter_ok value w w' Hw Hrun) as (_ & Hr & _).
    split.
    + unfold reads_bit, PCF85263A.alarm_interrupt.
      rewrite RWBit_get_run by lia. cbn zeta.
      destruct (next_fault w'); reflexivity.
    + rewrite Hr.
      destruct (registers_after_setter value (regs w)) as (H1 & _).
      cbv zeta in H1. rewrite H1. apply seconds_bit1.
  - intros Hf. unfold PCF85263A.alarm_interrupt.
    rewrite RWBit_set_run by (assumption || lia).
    cbn zeta. rewrite Hf. eexists. split; [reflexivity|].
    autorewrite with world. split; [reflexivity|].
    unfold decoded. cbn [tm_sec]. rewrite upd_same.
    apply seconds_shift_by_bit1. apply Hw.
Qed.

Lemma alarm_interrupt_shares_seconds_byte_witness :
  fst (i2c_bit.get PCF85263A.alarm_interrupt (PCF85263A.i2c_device rtc)
         (snd (PCF85263A.datetime_setter rtc friday sample))) = Ok false
  /\ exists w',
       i2c_bit.set PCF85263A.alarm_interrupt (PCF85263A.i2c_device rtc) true
         (snd (PCF85263A.datetime_setter rtc friday sample)) = (Ok tt, w')
       /\ tm_sec (decoded (regs w')) = 47.
Proof.
  split.
  - destruct (alarm_interrupt_shares_seconds_byte friday true sample sample_bytes)
      as [H _].
    destruct (H (snd (PCF85263A.datetime_setter rtc friday sample)) eq_refl) as [G _].
    exact G.
  - pose proof (datetime_setter_keeps_bytes friday sample _ sample_bytes eq_refl) as Hb.
    destruct (alarm_interrupt_shares_seconds_byte friday true _ Hb) as [_ H].
    destruct (H eq_refl) as (w' & E & _ & S).
    exists w'. split; [exact E|]. exact S.
Defined.

(** ** Which bits a multi-bit field reads and writes *)

Lemma high_bits_of_small (v n k : Z) :
  0 <= n -> 0 <= v < 2 ^ n -> n <= k -> Z.testbit v k = false.
Proof.
  intros Hn Hv Hk. destruct (Z.eq_dec v 0) as [->|Hnz]; [apply Z.bits_0|].
  apply Z.bits_above_log2; [lia|].
  assert (Z.log2 v < n); [|lia].
  apply Z.log2_lt_pow2; lia.
Qed.

Lemma field_mask_bits (n lo j : Z) :
  0 <= n -> 0 <= j ->
  Z.testbit (Z.shiftl (Z.shiftl 1 n - 1) lo) j = in_field lo n j.
Proof.
  intros Hn Hj. change (Z.shiftl 1 n - 1) with (Z.ones n).
  rewrite Z.shiftl_spec, Z.testbit_ones by lia.
  unfold in_field.
  destruct (Z.leb_spec 0 (j - lo)), (Z.leb_spec lo j),
    (Z.ltb_spec (j - lo) n), (Z.ltb_spec j (lo + n));
    cbn; try reflexivity; lia.
Qed.

(** [RWBits.get] returns bits [lo .. lo+n-1] of the byte, moved down to 0. *)
Lemma extract_bits (n lo b i : Z) :
  0 <= n -> 0 <= lo -> 0 <= i ->
  Z.testbit (extract (Z.shiftl (Z.shiftl 1 n - 1) lo) lo b) i
  = (i <? n) && Z.testbit b (lo + i).
Proof.
  intros Hn Hlo Hi. unfold extract.
  rewrite Z.shiftl_0_l, Z.lor_0_l.
  rewrite Z.shiftr_spec, Z.land_spec, field_mask_bits by lia.
  unfold in_field. rewrite (Z.add_comm i lo).
  destruct (Z.leb_spec lo (lo + i)); [|lia].
  destruct (Z.ltb_spec (lo + i) (lo + n)), (Z.ltb_spec i n); try lia;
    cbn; auto using andb_true_r, andb_false_r.
Qed.

(** [RWBits.set] of a value that fits the field replaces bits
    [lo .. lo+n-1] of the byte and keeps the others. *)
Lemma splice_bits (n lo b v j : Z) :
  0 <= n -> 0 <= lo -> lo + n <= 8 -> 0 <= b < 256 -> 0 <= v < 2 ^ n ->
  Z.testbit (splice (Z.shiftl (Z.shiftl 1 n - 1) lo) lo b v) j
  = if in_field lo n j then Z.testbit v (j - lo) else Z.testbit b j.
Proof.
  intros Hn Hlo Hfit Hb Hv.
  destruct (Z.lt_ge_cases j 0) as [Hneg|Hj].
  - rewrite !Z.testbit_neg_r by lia.
    unfold in_field. destruct (Z.leb_spec lo j); [lia|reflexivity].
  - unfold splice. rewrite Z.shiftl_0_l, Z.lor_0_l.
    rewrite Z.land_spec, Z.lor_spec, Z.land_spec, Z.lnot_spec by lia.
    rewrite field_mask_bits, Z.shiftl_spec by lia.
    change 0xFF with (Z.ones 8). rewrite Z.testbit_ones_nonneg by lia.
    unfold in_field.
    destruct (Z.leb_spec lo j) as [Hlj|Hlj]; cbn [andb].
    + destruct (Z.ltb_spec j (lo + n)) as [Hjn|Hjn]; cbn [negb].
      * rewrite andb_false_r. cbn [orb].
        destruct (Z.ltb_spec j 8); [apply andb_true_r | lia].
      * rewrite (high_bits_of_small v n (j - lo)) by lia.
        rewrite andb_true_r, orb_false_r.
        destruct (Z.ltb_spec j 8); [apply andb_true_r|].
        rewrite high_bits_of_byte by lia. reflexivity.
    + rewrite (Z.testbit_neg_r v (j - lo)) by lia.
      cbn [negb]. rewrite andb_true_r, orb_false_r.
      destruct (Z.ltb_spec j 8); [apply andb_true_r | lia].
Qed.

Lemma RWBits_reads (n a lo : Z) (w : world) :
  0 <= n -> 0 <= lo -> fault_free w ->
  exists r w1,
    i2c_bits.get (i2c_bits.RWBits_init n a lo) (PCF85263A.i2c_device rtc) w
      = (Ok r, w1)
    /\ regs w1 = regs w
    /\ forall i, 0 <= i ->
         Z.testbit r i = (i <? n) && Z.testbit (regs w a) (lo + i).
Proof.
  intros Hn Hlo Hf.
  rewrite RWBits_get_run. cbn zeta. unfold next_fault. rewrite Hf. cbn [hd].
  eexists. eexists. split; [reflexivity|]. split; [reflexivity|].
  intros i Hi. cbn [i2c_bits.bit_mask i2c_bits.RWBits_init].
  apply extract_bits; lia.
Qed.

Lemma RWBits_writes (n a lo v : Z) (w : world) :
  0 <= n -> 0 <= lo -> lo + n <= 8 ->
  byte_regs w -> fault_free w -> 0 <= v < 2 ^ n ->
  exists w2,
    i2c_bits.set (i2c_bits.RWBits_init n a lo) (PCF85263A.i2c_device rtc) v w
      = (Ok tt, w2)
    /\ (forall j, Z.testbit (regs w2 a) j
                  = if in_field lo n j then Z.testbit v (j - lo)
                    else Z.testbit (regs w a) j)
    /\ (forall x, x <> a -> regs w2 x = regs w x)
    /\ fault_free w2.
Proof.
  intros Hn Hlo Hfit Hw Hf Hv.
  rewrite RWBits_set_run. cbn zeta. rewrite Hf.
  eexists. split; [reflexivity|]. unfold fault_free.
  autorewrite with world. rewrite Hf. split; [|split].
  - intros j. rewrite upd_same. cbn [i2c_bits.bit_mask i2c_bits.RWBits_init].
    apply splice_bits; try lia. apply Hw.
  - intros x Hx. now apply upd_other.
  - reflexivity.
Qed.

Lemma mode_selector_shape (d : i2c_bits.RWBits) (lo n : Z) :
  In (d, (lo, n)) mode_selectors ->
  d = i2c_bits.RWBits_init n 0x23 lo /\ 0 <= lo /\ 0 < n /\ lo + n <= 8.
Proof.
  unfold mode_selectors. cbn [In].
  intros [H|[H|[H|[]]]]; injection H as <- <- <-; repeat split; lia.
Qed.

(** C4, as stated, fails for slot 3: bits 5 and 6 are not its field.  With
    only bit 5 of register 0x23 set the slot reads 0, with only bit 7 set it
    reads 2, and writing 3 to it on a zeroed register leaves 0xC0 (bits 6 and
    7), not 0x60. *)
Lemma timestamp3_mode_is_not_bits_5_6 :
  fst (i2c_bits.get PCF85263A.timestamp3_control_mode (PCF85263A.i2c_device rtc)
         (mode_byte 0x20)) = Ok 0
  /\ fst (i2c_bits.get PCF85263A.timestamp3_control_mode (PCF85263A.i2c_device rtc)
            (mode_byte 0x80)) = Ok 2
  /\ regs (snd (i2c_bits.set PCF85263A.timestamp3_control_mode
                  (PCF85263A.i2c_device rtc) 3 (mode_byte 0x00))) 0x23 = 0xC0.
Proof. repeat split; reflexivity. Qed.

(** C4, amended: the three mode selectors share register 0x23; slot 1 is bits
    0-1, slot 2 is bits 2-4 and slot 3 is bits 6-7 (bit 5 belongs to no
    slot).  Reading a slot returns exactly its bits, moved down to bit 0;
    writing a mode that fits the slot's width replaces exactly its bits. *)
Theorem mode_selector_fields
    (d : i2c_bits.RWBits) (lo n v : Z) (w : world) :
  In (d, (lo, n)) mode_selectors ->
  byte_regs w -> fault_free w -> 0 <= v < 2 ^ n ->
  (exists r w1,
     i2c_bits.get d (PCF85263A.i2c_device rtc) w = (Ok r, w1)
     /\ regs w1 = regs w
     /\ forall i, 0 <= i ->
          Z.testbit r i = (i <? n) && Z.testbit (regs w 0x23) (lo + i))
  /\ (exists w2,
        i2c_bits.set d (PCF85263A.i2c_device rtc) v w = (Ok tt, w2)
        /\ (forall j, Z.testbit (regs w2 0x23) j
                      = if in_field lo n j then Z.testbit v (j - lo)
                        else Z.testbit (regs w 0x23) j)
        /\ (forall x, x <> 0x23 -> regs w2 x = regs w x)
        /\ fault_free w2).
Proof.
  intros Hin Hw Hf Hv.
  destruct (mode_selector_shape d lo n Hin) as (-> & Hlo & Hn & Hfit).
  split.
  - destruct (RWBits_reads n 0x23 lo w) as (r & w1 & E & H1 & H2);
      try assumption; try lia.
    exists r, w1. auto.
  - apply RWBits_writes; assumption || lia.
Qed.

Lemma mode_selector_fields_witness :
  exists w2,
    i2c_bits.set PCF85263A.timestamp3_control_mode (PCF85263A.i2c_device rtc)
      PCF85263A.timestamp3_mode_last_switch_to_vdd sample = (Ok tt, w2)
    /\ regs w2 0x23 = 0xC5.
Proof.
  destruct (mode_selector_fields PCF85263A.timestamp3_control_mode 6 2
              PCF85263A.timestamp3_mode_last_switch_to_vdd sample)
    as (_ & w2 & E & _).
  - cbn. auto.
  - exact sample_bytes.
  - reflexivity.
  - cbv. split; congruence.
  - exists w2. split; [exact E|].
    injection E as <-. reflexivity.
Defined.

(** Every multi-bit field of the class passes the constructor's size check. *)
Lemma fields_fit_their_register :
  forallb i2c_bits.fits_register
    [ PCF85263A.timestamp1_control_mode; PCF85263A.timestamp2_control_mode;
      PCF85263A.timestamp3_control_mode; PCF85263A.oscillator_capacitance;
      PCF85263A.offset_register ] = true.
Proof. reflexivity. Qed.

(** ** One-bit fields: which bit, and nothing else *)

Lemma RWBit_reads (a k : Z) (w : world) :
  0 <= k < 8 -> reads_bit (i2c_bit.RWBit_init a k) a k w.
Proof.
  intros Hk. unfold reads_bit. rewrite RWBit_get_run by assumption.
  cbn zeta. destruct (next_fault w); reflexivity.
Qed.

Lemma RWBit_writes (a k : Z) (on : bool) (w : world) :
  0 <= k < 8 -> byte_regs w -> fault_free w ->
  writes_bit (i2c_bit.RWBit_init a k) a k on w.
Proof.
  intros Hk Hw Hf. unfold writes_bit.
  rewrite RWBit_set_run by assumption. cbn zeta. rewrite Hf.
  eexists. split; [reflexivity|]. autorewrite with world.
  split; [apply upd_same|]. split.
  - intros j. rewrite upd_same. apply with_bit_spec. lia.
  - intros x Hx. now apply upd_other.
Qed.

Lemma status_flag_shape (d : i2c_bit.RWBit) (k : Z) :
  In (d, k) status_flags -> d = i2c_bit.RWBit_init 0x2B k /\ 0 <= k < 8.
Proof.
  unfold status_flags. cbn [In].
  intros H. repeat destruct H as [H|H]; try contradiction;
    injection H as <- <-; split; reflexivity || lia.
Qed.

Lemma alarm_enable_shape (d : i2c_bit.RWBit) (k : Z) :
  In (d, k) alarm_enables -> d = i2c_bit.RWBit_init 0x10 k /\ 0 <= k < 8.
Proof.
  unfold alarm_enables. cbn [In].
  intros H. repeat destruct H as [H|H]; try contradiction;
    injection H as <- <-; split; reflexivity || lia.
Qed.

(** C9: the eight flags of register 0x2B are, from bit 7 down to bit 0:
    periodic interrupt, alarm 2, alarm 1, watchdog, battery switch,
    timestamp 3 event, timestamp 2 event, timestamp 1 event; the alarm 1 flag
    is bit 5.  Each reads its own bit, and writing one sets or clears its own
    bit and changes nothing else on the chip. *)
Theorem status_flag_bits (w : world) :
  reads_bit PCF85263A.periodic_interrupt_flag 0x2B 7 w
  /\ reads_bit PCF85263A.alarm2_flag 0x2B 6 w
  /\ reads_bit PCF85263A.alarm1_flag 0x2B 5 w
  /\ reads_bit PCF85263A.watchdog_flag 0x2B 4 w
  /\ reads_bit PCF85263A.battery_switch_flag 0x2B 3 w
  /\ reads_bit PCF85263A.timestamp3_event_flag 0x2B 2 w
  /\ reads_bit PCF85263A.timestamp2_event_flag 0x2B 1 w
  /\ reads_bit PCF85263A.timestamp1_event_flag 0x2B 0 w
  /\ (byte_regs w -> fault_free w ->
        forall d k on, In (d, k) status_flags -> writes_bit d 0x2B k on w).
Proof.
  repeat (split; [apply RWBit_reads; lia|]).
  intros Hw Hf d k on Hin.
  destruct (status_flag_shape d k Hin) as [-> Hk].
  now apply RWBit_writes.
Qed.

Lemma status_flag_bits_witness :
  fst (i2c_bit.get PCF85263A.alarm1_flag (PCF85263A.i2c_device rtc) sample) = Ok true
  /\ writes_bit PCF85263A.alarm1_flag 0x2B 5 false sample.
Proof.
  destruct (status_flag_bits sample) as (_ & _ & R & _ & _ & _ & _ & _ & W).
  split; [exact R|].
  apply (W sample_bytes eq_refl). cbn. auto.
Defined.

(** ** Shared bytes *)

Lemma extract_agree (n lo b b' : Z) :
  0 <= n -> 0 <= lo ->
  (forall j, in_field lo n j = true -> Z.testbit b j = Z.testbit b' j) ->
  extract (Z.shiftl (Z.shiftl 1 n - 1) lo) lo b
  = extract (Z.shiftl (Z.shiftl 1 n - 1) lo) lo b'.
Proof.
  intros Hn Hlo H. apply Z.bits_inj'. intros i Hi.
  rewrite !extract_bits by lia.
  destruct (Z.ltb_spec i n); [|reflexivity]. cbn [andb].
  apply H. unfold in_field.
  destruct (Z.leb_spec lo (lo + i)), (Z.ltb_spec (lo + i) (lo + n));
    reflexivity || lia.
Qed.

(** C5: a write of one field of a shared byte changes that field's bits
    only.  Setting slot 2's mode (a value of its three bits) leaves every bit
    of register 0x23 outside bits 2-4 as it was, so slot 1 and slot 3 read as
    before, and leaves every other register alone.  Writing any of the eight
    compare enables of register 0x10, or any of the eight flags of register
    0x2B, changes that one bit only; enabling compare-seconds on a zeroed
    register 0x10 leaves exactly bit 0 set. *)
Theorem sub_byte_writes_keep_siblings (w : world) :
  byte_regs w -> fault_free w ->
  (forall v, 0 <= v < 8 ->
     exists w',
       i2c_bits.set PCF85263A.timestamp2_control_mode
         (PCF85263A.i2c_device rtc) v w = (Ok tt, w')
       /\ (forall j, in_field 2 3 j = false ->
                     Z.testbit (regs w' 0x23) j = Z.testbit (regs w 0x23) j)
       /\ (forall x, x <> 0x23 -> regs w' x = regs w x)
       /\ fst (i2c_bits.get PCF85263A.timestamp1_control_mode
                 (PCF85263A.i2c_device rtc) w')
          = fst (i2c_bits.get PCF85263A.timestamp1_control_mode
                   (PCF85263A.i2c_device rtc) w)
       /\ fst (i2c_bits.get PCF85263A.timestamp3_control_mode
                 (PCF85263A.i2c_device rtc) w')
          = fst (i2c_bits.get PCF85263A.timestamp3_control_mode
                   (PCF85263A.i2c_device rtc) w))
  /\ (forall d k on, In (d, k) alarm_enables -> writes_bit d 0x10 k on w)
  /\ (forall d k on, In (d, k) status_flags -> writes_bit d 0x2B k on w)
  /\ (regs w 0x10 = 0 ->
        exists w',
          i2c_bit.set PCF85263A.alarm1_control_compare_seconds
            (PCF85263A.i2c_device rtc) true w = (Ok tt, w')
          /\ regs w' 0x10 = 1).
Proof.
  intros Hw Hf. split; [|split; [|split]].
  - intros v Hv.
    destruct (RWBits_writes 3 0x23 2 v w)
      as (w' & E & Hbits & Hrest & Hf'); try assumption; try lia.
    exists w'. split; [exact E|].
    assert (forall j, in_field 2 3 j = false ->
                      Z.testbit (regs w' 0x23) j = Z.testbit (regs w 0x23) j) as K.
    { intros j Hj. rewrite Hbits, Hj. reflexivity. }
    split; [exact K|]. split; [exact Hrest|].
    unfold PCF85263A.timestamp1_control_mode, PCF85263A.timestamp3_control_mode.
    rewrite !RWBits_get_run. cbn zeta.
    unfold next_fault. rewrite Hf, Hf'. cbn [hd fst].
    cbn [i2c_bits.bit_mask i2c_bits.RWBits_init].
    split; f_equal;
      apply extract_agree; try lia; intros j Hj; apply K;
      unfold in_field in *;
      destruct (Z.leb_spec 2 j), (Z.ltb_spec j (2 + 3)),
        (Z.leb_spec 0 j), (Z.ltb_spec j (0 + 2)),
        (Z.leb_spec 6 j), (Z.ltb_spec j (6 + 2));
      cbn in *; reflexivity || congruence || lia.
  - intros d k on Hin. destruct (alarm_enable_shape d k Hin) as [-> Hk].
    now apply RWBit_writes.
  - intros d k on Hin. destruct (status_flag_shape d k Hin) as [-> Hk].
    now apply RWBit_writes.
  - intros Hz.
    destruct (RWBit_writes 0x10 0 true w ltac:(lia) Hw Hf) as (w' & E & Hv & _).
    exists w'. split; [exact E|]. rewrite Hv, Hz. reflexivity.
Qed.

Lemma sub_byte_writes_keep_siblings_witness :
  (exists w',
     i2c_bits.set PCF85263A.timestamp2_control_mode (PCF85263A.i2c_device rtc)
       PCF85263A.timestamp2_mode_last_ts_pin_event sample = (Ok tt, w')
     /\ fst (i2c_bits.get PCF85263A.timestamp3_control_mode
               (PCF85263A.i2c_device rtc) w')
        = fst (i2c_bits.get PCF85263A.timestamp3_control_mode
                 (PCF85263A.i2c_device rtc) sample))
  /\ (exists w',
        i2c_bit.set PCF85263A.alarm1_control_compare_seconds
          (PCF85263A.i2c_device rtc) true sample = (Ok tt, w')
        /\ regs w' 0x10 = 1).
Proof.
  destruct (sub_byte_writes_keep_siblings sample sample_bytes eq_refl)
    as (M & _ & _ & Z0).
  split.
  - destruct (M PCF85263A.timestamp2_mode_last_ts_pin_event)
      as (w' & E & _ & _ & _ & G).
    + cbv. split; congruence.
    + exists w'. split; [exact E | exact G].
  - apply Z0. reflexivity.
Defined.

(** ** The calibration offset *)

Lemma splice_whole_byte (b x : Z) : splice 0xFF 0 b x = x mod 256.
Proof.
  unfold splice. rewrite Z.shiftl_0_l, Z.lor_0_l, Z.shiftl_0_r.
  rewrite Z.land_lor_distr_l, <- Z.land_assoc.
  change (Z.land (Z.lnot 0xFF) 0xFF) with 0. rewrite Z.land_0_r, Z.lor_0_l.
  change 0xFF with (Z.ones 8). now rewrite Z.land_ones by lia.
Qed.

Lemma extract_whole_byte (b : Z) : extract 0xFF 0 b = b mod 256.
Proof.
  unfold extract. rewrite Z.shiftl_0_l, Z.lor_0_l, Z.shiftr_0_r.
  change 0xFF with (Z.ones 8). now rewrite Z.land_ones by lia.
Qed.

(** C8: the offset is an 8-bit signed number (the docstring of
    [offset_register] says so), and a value written should be the value read
    back.  The code at a negative value: the field is built without a sign,
    so -1 is stored as 0xFF and read back as 255, and -128 comes back as
    128. *)
Lemma negative_offset_reads_back_unsigned :
  fst (i2c_bits.get PCF85263A.offset_register (PCF85263A.i2c_device rtc)
         (snd (i2c_bits.set PCF85263A.offset_register (PCF85263A.i2c_device rtc)
                 (-1) blank))) = Ok 255
  /\ fst (i2c_bits.get PCF85263A.offset_register (PCF85263A.i2c_device rtc)
            (snd (i2c_bits.set PCF85263A.offset_register (PCF85263A.i2c_device rtc)
                    (-128) blank))) = Ok 128.
Proof. split; reflexivity. Qed.

(** The offset accessor as it is built: the whole byte of register 0x24.
    Writing [x] stores the byte [x mod 256] and touches no other register;
    reading returns the register byte as a number from 0 to 255, which is
    [x] for a non-negative [x] and [x + 256] for a negative one down to
    -128. *)
Theorem offset_register_is_raw_byte (x : Z) (w : world) :
  fault_free w ->
  exists w1 w2,
    i2c_bits.set PCF85263A.offset_register (PCF85263A.i2c_device rtc) x w
      = (Ok tt, w1)
    /\ regs w1 0x24 = x mod 256
    /\ (forall a, a <> 0x24 -> regs w1 a = regs w a)
    /\ i2c_bits.get PCF85263A.offset_register (PCF85263A.i2c_device rtc) w1
       = (Ok (x mod 256), w2)
    /\ regs w2 = regs w1
    /\ (0 <= x < 256 -> x mod 256 = x)
    /\ (-128 <= x < 0 -> x mod 256 = x + 256).
Proof.
  intros Hf. unfold PCF85263A.offset_register.
  rewrite RWBits_set_run. cbn zeta. rewrite Hf.
  eexists. eexists. split; [reflexivity|].
  rewrite RWBits_get_run. cbn zeta. unfold next_fault.
  autorewrite with world. rewrite Hf. cbn [hd tl].
  cbn [i2c_bits.bit_mask i2c_bits.RWBits_init].
  change (Z.shiftl (Z.shiftl 1 8 - 1) 0) with 0xFF.
  rewrite upd_same, splice_whole_byte, extract_whole_byte, Z.mod_mod by lia.
  repeat split.
  - intros a Ha. now apply upd_other.
  - intros Hx. now apply Z.mod_small.
  - intros Hx. symmetry. apply Z.mod_unique with (q := -1); lia.
Qed.

Lemma offset_register_is_raw_byte_witness :
  exists w1 w2,
    i2c_bits.set PCF85263A.offset_register (PCF85263A.i2c_device rtc) 100 sample
      = (Ok tt, w1)
    /\ i2c_bits.get PCF85263A.offset_register (PCF85263A.i2c_device rtc) w1
       = (Ok 100, w2).
Proof.
  destruct (offset_register_is_raw_byte 100 sample eq_refl)
    as (w1 & w2 & E & _ & _ & G & _).
  exists w1, w2. split; [exact E | exact G].
Defined.

(** * Further properties of the driver *)

(** ** One-bit fields *)

Lemma running_bytes : byte_regs running.
Proof.
  intros a. cbn. unfold running_regs.
  repeat match goal with |- context [if ?c then _ else _] => destruct c end; lia.
Qed.

Lemma bit_field_shape (d : i2c_bit.RWBit) (a k : Z) :
  In (d, (a, k)) bit_fields -> d = i2c_bit.RWBit_init a k /\ 0 <= k < 8.
Proof.
  unfold bit_fields, status_flags, alarm_enables. cbn [In map app fst snd].
  intros H. repeat destruct H as [H|H]; try contradiction;
    injection H as <- <- <-; split; reflexivity || lia.
Qed.

Lemma with_bit_same (b k : Z) : 0 <= k -> with_bit b k (Z.testbit b k) = b.
Proof.
  intros Hk. apply Z.bits_inj'. intros j Hj.
  rewrite with_bit_spec by lia.
  destruct (Z.eqb_spec k j) as [->|]; reflexivity.
Qed.

Lemma with_bit_commute (b k k' : Z) (v v' : bool) :
  0 <= k -> 0 <= k' -> k <> k' ->
  with_bit (with_bit b k v) k' v' = with_bit (with_bit b k' v') k v.
Proof.
  intros Hk Hk' Hne. apply Z.bits_inj'. intros j Hj.
  rewrite !with_bit_spec by lia.
  destruct (Z.eqb_spec k j), (Z.eqb_spec k' j); try reflexivity. lia.
Qed.

(** X1: every one-bit field of the class reads back what was written to it;
    and writing the value the bit already has leaves every register as it
    was. *)
Theorem bit_field_write_then_read
    (d : i2c_bit.RWBit) (a k : Z) (on : bool) (w : world) :
  In (d, (a, k)) bit_fields -> byte_regs w -> fault_free w ->
  exists w1 w2,
    i2c_bit.set d (PCF85263A.i2c_device rtc) on w = (Ok tt, w1)
    /\ i2c_bit.get d (PCF85263A.i2c_device rtc) w1 = (Ok on, w2)
    /\ regs w2 = regs w1
    /\ (on = Z.testbit (regs w a) k -> forall x, regs w1 x = regs w x).
Proof.
  intros Hin Hw Hf. destruct (bit_field_shape d a k Hin) as [-> Hk].
  rewrite RWBit_set_run by assumption. cbn zeta. rewrite Hf.
  eexists. eexists. split; [reflexivity|].
  rewrite RWBit_get_run by assumption. cbn zeta. unfold next_fault.
  autorewrite with world. rewrite Hf. cbn [tl hd].
  rewrite upd_same, with_bit_spec, Z.eqb_refl by lia.
  split; [reflexivity|]. split; [reflexivity|].
  intros -> x. rewrite with_bit_same by lia.
  unfold upd. destruct (Z.eqb_spec x a) as [->|]; reflexivity.
Qed.

Lemma bit_field_write_then_read_witness :
  exists w1 w2,
    i2c_bit.set PCF85263A.watchdog_flag (PCF85263A.i2c_device rtc) true sample
      = (Ok tt, w1)
    /\ i2c_bit.get PCF85263A.watchdog_flag (PCF85263A.i2c_device rtc) w1
       = (Ok true, w2).
Proof.
  destruct (bit_field_write_then_read PCF85263A.watchdog_flag 0x2B 4 true sample)
    as (w1 & w2 & E & G & _).
  - cbn. auto 20.
  - exact sample_bytes.
  - reflexivity.
  - exists w1, w2. split; [exact E | exact G].
Defined.

(** X12: two different bits of one register can be written in either order:
    the registers end up the same. *)
Theorem bit_writes_commute (a k k' : Z) (v v' : bool) (w : world) :
  0 <= k < 8 -> 0 <= k' < 8 -> k <> k' -> byte_regs w -> fault_free w ->
  exists w1 w2 u1 u2,
    i2c_bit.set (i2c_bit.RWBit_init a k) (PCF85263A.i2c_device rtc) v w = (Ok tt, w1)
    /\ i2c_bit.set (i2c_bit.RWBit_init a k') (PCF85263A.i2c_device rtc) v' w1 = (Ok tt, w2)
    /\ i2c_bit.set (i2c_bit.RWBit_init a k') (PCF85263A.i2c_device rtc) v' w = (Ok tt, u1)
    /\ i2c_bit.set (i2c_bit.RWBit_init a k) (PCF85263A.i2c_device rtc) v u1 = (Ok tt, u2)
    /\ (forall x, regs w2 x = regs u2 x)
    /\ Z.testbit (regs w2 a) k = v /\ Z.testbit (regs w2 a) k' = v'.
Proof.
  intros Hk Hk' Hne Hw Hf.
  destruct (RWBit_writes a k v w Hk Hw Hf) as (w1 & E1 & V1 & _ & R1).
  assert (byte_regs w1 /\ fault_free w1) as [Hw1 Hf1].
  { rewrite RWBit_set_run in E1 by assumption. cbn zeta in E1. rewrite Hf in E1.
    injection E1 as <-. split; [|unfold fault_free; autorewrite with world; now rewrite Hf].
    intros x. cbn. unfold upd. destruct (x =? a); [|apply Hw].
    apply with_bit_byte; [apply Hw | assumption]. }
  destruct (RWBit_writes a k' v' w1 Hk' Hw1 Hf1) as (w2 & E2 & V2 & _ & R2).
  destruct (RWBit_writes a k' v' w Hk' Hw Hf) as (u1 & F1 & U1 & _ & S1).
  assert (byte_regs u1 /\ fault_free u1) as [Hu1 Hg1].
  { rewrite RWBit_set_run in F1 by assumption. cbn zeta in F1. rewrite Hf in F1.
    injection F1 as <-. split; [|unfold fault_free; autorewrite with world; now rewrite Hf].
    intros x. cbn. unfold upd. destruct (x =? a); [|apply Hw].
    apply with_bit_byte; [apply Hw | assumption]. }
  destruct (RWBit_writes a k v u1 Hk Hu1 Hg1) as (u2 & F2 & U2 & _ & S2).
  exists w1, w2, u1, u2. repeat split; try assumption.
  - intros x. destruct (Z.eq_dec x a) as [->|Hx].
    + rewrite V2, V1, U2, U1. apply with_bit_commute; lia.
    + rewrite R2, R1, S2, S1 by assumption. reflexivity.
  - rewrite V2, V1, !with_bit_spec by lia.
    destruct (Z.eqb_spec k' k); [lia|]. now rewrite Z.eqb_refl.
  - rewrite V2, with_bit_spec by lia. now rewrite Z.eqb_refl.
Qed.

Lemma bit_writes_commute_witness :
  exists w1 w2,
    i2c_bit.set PCF85263A.alarm1_control_compare_seconds
      (PCF85263A.i2c_device rtc) true sample = (Ok tt, w1)
    /\ i2c_bit.set PCF85263A.alarm1_control_compare_minutes
         (PCF85263A.i2c_device rtc) true w1 = (Ok tt, w2)
    /\ Z.testbit (regs w2 0x10) 0 = true /\ Z.testbit (regs w2 0x10) 1 = true.
Proof.
  destruct (bit_writes_commute 0x10 0 1 true true sample)
    as (w1 & w2 & _ & _ & E1 & E2 & _ & _ & _ & T0 & T1);
    try lia; try exact sample_bytes; try reflexivity.
  exists w1, w2. repeat split; assumption.
Defined.

(** ** Multi-bit fields *)

Lemma multi_bit_field_shape (d : i2c_bits.RWBits) (a lo n : Z) :
  In (d, (a, (lo, n))) multi_bit_fields ->
  d = i2c_bits.RWBits_init n a lo /\ 0 <= lo /\ 0 < n /\ lo + n <= 8.
Proof.
  unfold multi_bit_fields. cbn [In].
  intros H. repeat destruct H as [H|H]; try contradiction;
    injection H as <- <- <- <-; repeat split; lia.
Qed.

Lemma extract_of_splice (n lo b v : Z) :
  0 <= n -> 0 <= lo -> lo + n <= 8 -> 0 <= b < 256 -> 0 <= v < 2 ^ n ->
  extract (Z.shiftl (Z.shiftl 1 n - 1) lo) lo
    (splice (Z.shiftl (Z.shiftl 1 n - 1) lo) lo b v) = v.
Proof.
  intros Hn Hlo Hfit Hb Hv. apply Z.bits_inj'. intros i Hi.
  rewrite extract_bits, splice_bits by lia.
  unfold in_field.
  destruct (Z.ltb_spec i n) as [Hin|Hin]; cbn [andb].
  - destruct (Z.leb_spec lo (lo + i)), (Z.ltb_spec (lo + i) (lo + n)); try lia.
    cbn [andb]. f_equal. lia.
  - symmetry. apply (high_bits_of_small v n i); lia.
Qed.

(** A value that fits a field is read back from it, and the write stays
    inside the field. *)
Lemma RWBits_set_get (n a lo v : Z) (w : world) :
  0 <= n -> 0 <= lo -> lo + n <= 8 ->
  byte_regs w -> fault_free w -> 0 <= v < 2 ^ n ->
  exists w1,
    i2c_bits.set (i2c_bits.RWBits_init n a lo) (PCF85263A.i2c_device rtc) v w
      = (Ok tt, w1)
    /\ fst (i2c_bits.get (i2c_bits.RWBits_init n a lo) (PCF85263A.i2c_device rtc) w1)
       = Ok v
    /\ (forall j, in_field lo n j = false ->
                  Z.testbit (regs w1 a) j = Z.testbit (regs w a) j)
    /\ (forall x, x <> a -> regs w1 x = regs w x)
    /\ fault_free w1.
Proof.
  intros Hn Hlo Hfit Hw Hf Hv.
  rewrite RWBits_set_run. cbn zeta. rewrite Hf.
  eexists. split; [reflexivity|].
  rewrite RWBits_get_run. cbn zeta. unfold next_fault, fault_free.
  autorewrite with world. rewrite Hf. cbn [tl hd fst].
  cbn [i2c_bits.bit_mask i2c_bits.RWBits_init]. rewrite upd_same.
  split; [f_equal; apply extract_of_splice; try lia; apply Hw|].
  split; [|split; [|reflexivity]].
  - intros j Hj. rewrite splice_bits by (try lia; apply Hw). now rewrite Hj.
  - intros x Hx. now apply upd_other.
Qed.

Lemma mode_selector_cases (d : i2c_bits.RWBits) (lo n : Z) :
  In (d, (lo, n)) mode_selectors ->
  (lo = 0 /\ n = 2) \/ (lo = 2 /\ n = 3) \/ (lo = 6 /\ n = 2).
Proof.
  unfold mode_selectors. cbn [In].
  intros [H|[H|[H|[]]]]; inversion H; auto.
Qed.

(** X3: each of the three timestamp mode selectors reads back the mode
    written to it (any value of its width, so every named mode), and a write
    to one selector leaves what the other two read unchanged. *)
Theorem mode_selectors_are_independent
    (d d' : i2c_bits.RWBits) (lo n lo' n' v : Z) (w : world) :
  In (d, (lo, n)) mode_selectors -> In (d', (lo', n')) mode_selectors ->
  byte_regs w -> fault_free w -> 0 <= v < 2 ^ n ->
  exists w1,
    i2c_bits.set d (PCF85263A.i2c_device rtc) v w = (Ok tt, w1)
    /\ fst (i2c_bits.get d (PCF85263A.i2c_device rtc) w1) = Ok v
    /\ (lo' <> lo ->
        fst (i2c_bits.get d' (PCF85263A.i2c_device rtc) w1)
        = fst (i2c_bits.get d' (PCF85263A.i2c_device rtc) w)).
Proof.
  intros Hin Hin' Hw Hf Hv.
  destruct (mode_selector_shape d lo n Hin) as (-> & Hlo & Hn & Hfit).
  destruct (mode_selector_shape d' lo' n' Hin') as (-> & Hlo' & Hn' & Hfit').
  destruct (RWBits_set_get n 0x23 lo v w) as (w1 & E & G & K & _ & Hf1);
    try assumption; try lia.
  exists w1. split; [exact E|]. split; [exact G|].
  intros Hne. rewrite !RWBits_get_run. cbn zeta.
  unfold next_fault. rewrite Hf, Hf1. cbn [hd fst].
  cbn [i2c_bits.bit_mask i2c_bits.RWBits_init].
  f_equal. apply extract_agree; try lia.
  intros j Hj. apply K.
  destruct (mode_selector_cases _ _ _ Hin) as [[-> ->]|[[-> ->]|[-> ->]]];
    destruct (mode_selector_cases _ _ _ Hin') as [[-> ->]|[[-> ->]|[-> ->]]];
    try (exfalso; apply Hne; reflexivity);
    unfold in_field in *;
    repeat match goal with
           | H : context [?x <=? ?y] |- _ => destruct (Z.leb_spec x y)
           | H : context [?x <? ?y] |- _ => destruct (Z.ltb_spec x y)
           | |- context [?x <=? ?y] => destruct (Z.leb_spec x y)
           | |- context [?x <? ?y] => destruct (Z.ltb_spec x y)
           end; cbn in *; reflexivity || congruence || lia.
Qed.

Lemma mode_selectors_are_independent_witness :
  exists w1,
    i2c_bits.set PCF85263A.timestamp1_control_mode (PCF85263A.i2c_device rtc)
      PCF85263A.timestamp1_mode_last_ts_pin_event sample = (Ok tt, w1)
    /\ fst (i2c_bits.get PCF85263A.timestamp1_control_mode
              (PCF85263A.i2c_device rtc) w1) = Ok 2
    /\ fst (i2c_bits.get PCF85263A.timestamp2_control_mode
              (PCF85263A.i2c_device rtc) w1) = Ok 1.
Proof.
  destruct (mode_selectors_are_independent
              PCF85263A.timestamp1_control_mode PCF85263A.timestamp2_control_mode
              0 2 2 3 PCF85263A.timestamp1_mode_last_ts_pin_event sample)
    as (w1 & E & G & K).
  - cbn. auto.
  - cbn. auto.
  - exact sample_bytes.
  - reflexivity.
  - cbv. split; congruence.
  - exists w1. split; [exact E|]. split; [exact G|].
    rewrite K by discriminate. reflexivity.
Defined.

(** X4: the oscillator capacitance selector is bits 0-1 of register 0x25: a
    selection from 0 to 3 (the three named ones included) is read back as
    written, bits 2-7 of the register keep their values and no other
    register changes. *)
Theorem oscillator_capacitance_round_trip (v : Z) (w : world) :
  byte_regs w -> fault_free w -> 0 <= v < 4 ->
  exists w1,
    i2c_bits.set PCF85263A.oscillator_capacitance (PCF85263A.i2c_device rtc) v w
      = (Ok tt, w1)
    /\ fst (i2c_bits.get PCF85263A.oscillator_capacitance
              (PCF85263A.i2c_device rtc) w1) = Ok v
    /\ (forall j, 2 <= j -> Z.testbit (regs w1 0x25) j = Z.testbit (regs w 0x25) j)
    /\ (forall x, x <> 0x25 -> regs w1 x = regs w x).
Proof.
  intros Hw Hf Hv.
  destruct (RWBits_set_get 2 0x25 0 v w) as (w1 & E & G & K & R & _);
    try assumption; try lia.
  exists w1. split; [exact E|]. split; [exact G|]. split; [|exact R].
  intros j Hj. apply K. unfold in_field.
  destruct (Z.leb_spec 0 j), (Z.ltb_spec j (0 + 2)); reflexivity || lia.
Qed.

Lemma oscillator_capacitance_round_trip_witness :
  exists w1,
    i2c_bits.set PCF85263A.oscillator_capacitance (PCF85263A.i2c_device rtc)
      PCF85263A.oscillator_capacitance_12_5pf sample = (Ok tt, w1)
    /\ fst (i2c_bits.get PCF85263A.oscillator_capacitance
              (PCF85263A.i2c_device rtc) w1) = Ok 2.
Proof.
  destruct (oscillator_capacitance_round_trip
              PCF85263A.oscillator_capacitance_12_5pf sample sample_bytes eq_refl)
    as (w1 & E & G & _).
  - cbv. split; congruence.
  - exists w1. split; [exact E | exact G].
Defined.

(** ** Reading a field *)

(** X2: reading a field never writes.  For every one-bit and multi-bit field
    of the class a read is one read transaction of the field's register,
    refused or not, after which every register is as before; so a latched
    flag is not cleared by reading it, and a second read gives the same
    answer. *)
Theorem field_reads_leave_registers (w : world) :
  (forall d a k, In (d, (a, k)) bit_fields ->
     let w1 := snd (i2c_bit.get d (PCF85263A.i2c_device rtc) w) in
     regs w1 = regs w
     /\ trace w1 = trace w ++ [WriteThenReadInto 0x51 [a] 1]
     /\ (fault_free w ->
         fst (i2c_bit.get d (PCF85263A.i2c_device rtc) w1)
         = fst (i2c_bit.get d (PCF85263A.i2c_device rtc) w)))
  /\ (forall d a lo n, In (d, (a, (lo, n))) multi_bit_fields ->
        let w1 := snd (i2c_bits.get d (PCF85263A.i2c_device rtc) w) in
        regs w1 = regs w
        /\ trace w1 = trace w ++ [WriteThenReadInto 0x51 [a] 1]
        /\ (fault_free w ->
            fst (i2c_bits.get d (PCF85263A.i2c_device rtc) w1)
            = fst (i2c_bits.get d (PCF85263A.i2c_device rtc) w))).
Proof.
  split.
  - intros d a k Hin. destruct (bit_field_shape d a k Hin) as [-> Hk].
    cbv zeta. rewrite !RWBit_get_run by assumption. cbn zeta.
    destruct (next_fault w) eqn:F; cbn [snd fst]; autorewrite with world;
      (split; [reflexivity|]; split; [reflexivity|]); intros Hf;
      unfold next_fault in *; autorewrite with world; rewrite Hf in *;
      cbn in F |- *; [discriminate | reflexivity].
  - intros d a lo n Hin.
    destruct (multi_bit_field_shape d a lo n Hin) as (-> & _).
    cbv zeta. rewrite !RWBits_get_run. cbn zeta.
    destruct (next_fault w) eqn:F; cbn [snd fst]; autorewrite with world;
      (split; [reflexivity|]; split; [reflexivity|]); intros Hf;
      unfold next_fault in *; autorewrite with world; rewrite Hf in *;
      cbn in F |- *; [discriminate | reflexivity].
Qed.

Lemma field_reads_leave_registers_witness :
  regs (snd (i2c_bit.get PCF85263A.alarm1_flag (PCF85263A.i2c_device rtc) sample))
    0x2B = 0xA5
  /\ fst (i2c_bit.get PCF85263A.alarm1_flag (PCF85263A.i2c_device rtc)
            (snd (i2c_bit.get PCF85263A.alarm1_flag (PCF85263A.i2c_device rtc) sample)))
     = Ok true.
Proof.
  destruct (field_reads_leave_registers sample) as [B _].
  destruct (B PCF85263A.alarm1_flag 0x2B 5) as (R & _ & G).
  - cbn. auto 20.
  - split; [rewrite R; reflexivity|]. rewrite (G eq_refl). reflexivity.
Defined.

(** ** Values wider than their field *)

Lemma splice_bits_any (n lo b v j : Z) :
  0 <= n -> 0 <= lo -> 0 <= j < 8 ->
  Z.testbit (splice (Z.shiftl (Z.shiftl 1 n - 1) lo) lo b v) j
  = if j <? lo then Z.testbit b j
    else if j <? lo + n then Z.testbit v (j - lo)
    else Z.testbit b j || Z.testbit v (j - lo).
Proof.
  intros Hn Hlo Hj. unfold splice. rewrite Z.shiftl_0_l, Z.lor_0_l.
  rewrite Z.land_spec, Z.lor_spec, Z.land_spec, Z.lnot_spec by lia.
  rewrite field_mask_bits, Z.shiftl_spec by lia.
  change 0xFF with (Z.ones 8). rewrite Z.testbit_ones_nonneg by lia.
  unfold in_field.
  destruct (Z.ltb_spec j 8); [|lia]. rewrite andb_true_r.
  destruct (Z.ltb_spec j lo), (Z.leb_spec lo j); try lia; cbn [andb negb].
  - rewrite (Z.testbit_neg_r v (j - lo)) by lia.
    now rewrite andb_true_r, orb_false_r.
  - destruct (Z.ltb_spec j (lo + n)); cbn [negb].
    + now rewrite andb_false_r.
    + now rewrite andb_true_r.
Qed.

(** X5: a multi-bit field does not check the value against its width.  Any
    integer is accepted (no [ValueError]); what is stored is a byte whose
    bits below the field are kept, whose field bits are the value's low
    bits, and into whose bits above the field the value's higher bits are
    OR-ed: a value too wide for a field sets bits of its neighbours. *)
Theorem wide_value_spills_into_neighbours
    (d : i2c_bits.RWBits) (a lo n v : Z) (w : world) :
  In (d, (a, (lo, n))) multi_bit_fields -> fault_free w ->
  exists w1,
    i2c_bits.set d (PCF85263A.i2c_device rtc) v w = (Ok tt, w1)
    /\ 0 <= regs w1 a < 256
    /\ (forall j, 0 <= j < 8 ->
          Z.testbit (regs w1 a) j
          = if j <? lo then Z.testbit (regs w a) j
            else if j <? lo + n then Z.testbit v (j - lo)
            else Z.testbit (regs w a) j || Z.testbit v (j - lo))
    /\ (forall x, x <> a -> regs w1 x = regs w x).
Proof.
  intros Hin Hf.
  destruct (multi_bit_field_shape d a lo n Hin) as (-> & Hlo & Hn & _).
  rewrite RWBits_set_run. cbn zeta. rewrite Hf.
  eexists. split; [reflexivity|]. autorewrite with world. rewrite upd_same.
  cbn [i2c_bits.bit_mask i2c_bits.RWBits_init].
  split; [apply land_255_byte|]. split.
  - intros j Hj. apply splice_bits_any; lia.
  - intros x Hx. now apply upd_other.
Qed.

Lemma wide_value_spills_into_neighbours_witness :
  exists w1,
    i2c_bits.set PCF85263A.timestamp1_control_mode (PCF85263A.i2c_device rtc)
      4 (mode_byte 0) = (Ok tt, w1)
    /\ regs w1 0x23 = 4
    /\ fst (i2c_bits.get PCF85263A.timestamp2_control_mode
              (PCF85263A.i2c_device rtc) w1) = Ok 1.
Proof.
  destruct (wide_value_spills_into_neighbours
              PCF85263A.timestamp1_control_mode 0x23 0 2 4 (mode_byte 0))
    as (w1 & E & _).
  - cbn. auto.
  - reflexivity.
  - exists w1. split; [exact E|]. injection E as <-. split; reflexivity.
Defined.

(** ** Registers stay bytes *)

Lemma byte_upd (f : Z -> Z) (a v : Z) :
  byte_file f -> 0 <= v < 256 -> byte_file (upd f a v).
Proof.
  intros Hf Hv x. unfold upd. destruct (x =? a); [assumption | apply Hf].
Qed.

(** X14: the driver never leaves anything but a byte in a register.
    Whatever the outcome (success, refusal by the bus at any point,
    rejection of the value), after a write to any one-bit field, to any
    multi-bit field with any integer, or to [datetime] with any value, every
    register still holds a number from 0 to 255. *)
Theorem driver_writes_keep_bytes (w : world) :
  byte_regs w ->
  (forall d a k on, In (d, (a, k)) bit_fields ->
     byte_regs (snd (i2c_bit.set d (PCF85263A.i2c_device rtc) on w)))
  /\ (forall d a lo n v, In (d, (a, (lo, n))) multi_bit_fields ->
        byte_regs (snd (i2c_bits.set d (PCF85263A.i2c_device rtc) v w)))
  /\ (forall value,
        byte_regs (snd (PCF85263A.datetime_setter rtc value w))).
Proof.
  intros Hw. split; [|split].
  - intros d a k on Hin. destruct (bit_field_shape d a k Hin) as [-> Hk].
    rewrite RWBit_set_run by assumption. cbn zeta.
    destruct (faults w) as [|[] [|[] ?]]; cbn [snd]; unfold byte_regs;
      autorewrite with world; try exact Hw;
      apply byte_upd; try exact Hw; apply with_bit_byte; auto.
  - intros d a lo n v Hin.
    destruct (multi_bit_field_shape d a lo n Hin) as (-> & _).
    rewrite RWBits_set_run. cbn zeta.
    destruct (faults w) as [|[] [|[] ?]]; cbn [snd]; unfold byte_regs;
      autorewrite with world; try exact Hw;
      apply byte_upd; try exact Hw; apply land_255_byte.
  - intros value. rewrite datetime_setter_run by assumption.
    destruct (storable value) eqn:Hs; [|exact Hw]. cbn zeta.
    assert (byte_file (block_stored value (regs w))) as Hb
      by (apply store_run_bytes; assumption).
    destruct (faults w) as [|[] [|[] [|[] ?]]]; cbn [snd]; unfold byte_regs;
      autorewrite with world; try exact Hw; try exact Hb;
      apply byte_upd; try exact Hb; apply with_bit_byte; try lia; apply Hb.
Qed.

Lemma driver_writes_keep_bytes_witness :
  byte_regs (snd (i2c_bits.set PCF85263A.offset_register
                    (PCF85263A.i2c_device rtc) (-3) sample))
  /\ byte_regs (snd (PCF85263A.datetime_setter rtc leap (refused_at 2))).
Proof.
  assert (byte_regs (refused_at 2)) as Hr by exact sample_bytes.
  split.
  - destruct (driver_writes_keep_bytes sample sample_bytes) as (_ & B & _).
    apply (B _ 0x24 0 8). cbn. auto 10.
  - destruct (driver_writes_keep_bytes (refused_at 2) Hr) as (_ & _ & S).
    apply S.
Defined.

(** ** More on writing the date and time *)

Lemma in_block_cases (a : Z) :
  1 <= a <= 7 -> a = 1 \/ a = 2 \/ a = 3 \/ a = 4 \/ a = 5 \/ a = 6 \/ a = 7.
Proof. lia. Qed.

(** X6: a successful assignment of [datetime] changes registers 0x01 to 0x07
    and no other; and what those seven registers then hold depends on the
    value alone, not on what the chip held before. *)
Theorem datetime_setter_frame (value : struct_time) (w w' : world) :
  byte_regs w ->
  PCF85263A.datetime_setter rtc value w = (Ok tt, w') ->
  (forall a, a < 1 \/ 7 < a -> regs w' a = regs w a)
  /\ (forall u u', byte_regs u ->
        PCF85263A.datetime_setter rtc value u = (Ok tt, u') ->
        forall a, 1 <= a <= 7 -> regs u' a = regs w' a).
Proof.
  intros Hw Hrun.
  destruct (datetime_setter_ok value w w' Hw Hrun) as (_ & Hr & _).
  destruct (registers_after_setter value (regs w))
    as (H1 & H2 & H3 & H4 & H5 & H6 & H7 & Hout).
  cbv zeta in *. split.
  - intros a Ha. rewrite Hr. now apply Hout.
  - intros u u' Hu Hrun' a Ha.
    destruct (datetime_setter_ok value u u' Hu Hrun') as (_ & Hr' & _).
    destruct (registers_after_setter value (regs u))
      as (G1 & G2 & G3 & G4 & G5 & G6 & G7 & _).
    cbv zeta in *. rewrite Hr, Hr'.
    destruct (in_block_cases a Ha) as [->|[->|[->|[->|[->|[->| ->]]]]]]; congruence.
Qed.

Lemma datetime_setter_frame_witness :
  regs (snd (PCF85263A.datetime_setter rtc friday sample)) 0x2B = 0xA5
  /\ regs (snd (PCF85263A.datetime_setter rtc friday sample)) 0x23 = 0x45.
Proof.
  destruct (datetime_setter_frame friday sample
              (snd (PCF85263A.datetime_setter rtc friday sample))
              sample_bytes eq_refl) as [F _].
  split; rewrite F by lia; reflexivity.
Defined.

Lemma masked_seconds_bit7 (x : Z) : Z.testbit (Z.land x 0x7F) 7 = false.
Proof.
  rewrite Z.land_spec. change (Z.testbit 0x7F 7) with false. apply andb_false_r.
Qed.

(** X7: the block write by itself already leaves the compromised flag
    clear, because the seconds byte is stored with its top bit masked off.
    The flag-clearing step that follows therefore writes back the byte it
    read: whether it succeeds or is refused, no register changes. *)
Theorem block_write_already_clears_flag (value : struct_time) (w w1 : world) :
  byte_regs w ->
  i2c_bcd_datetime.set PCF85263A.datetime_register (PCF85263A.i2c_device rtc)
    value w = (Ok tt, w1) ->
  Z.testbit (regs w1 0x01) 7 = false
  /\ forall x,
       regs (snd (i2c_bit.set PCF85263A.datetime_compromised
                    (PCF85263A.i2c_device rtc) false w1)) x = regs w1 x.
Proof.
  intros Hw Hrun. rewrite BCD_set_run in Hrun.
  destruct (storable value) eqn:Hs; [|discriminate]. cbn zeta in Hrun.
  destruct (next_fault w); [discriminate|]. injection Hrun as <-.
  assert (Z.testbit (block_stored value (regs w) 0x01) 7 = false) as Hbit
    by apply masked_seconds_bit7.
  split; [exact Hbit|].
  intros x. unfold PCF85263A.datetime_compromised.
  rewrite RWBit_set_run; [|lia|apply store_run_bytes; assumption].
  cbn zeta. autorewrite with world.
  destruct (tl (faults w)) as [|[] [|[] ?]]; cbn [snd]; autorewrite with world;
    try reflexivity;
    rewrite <- Hbit at 1; rewrite with_bit_same by lia;
    unfold upd; destruct (Z.eqb_spec x 1) as [->|]; reflexivity.
Qed.

Lemma block_write_already_clears_flag_witness :
  regs sample 0x01 = 0x80
  /\ Z.testbit
       (regs (snd (i2c_bcd_datetime.set PCF85263A.datetime_register
                     (PCF85263A.i2c_device rtc) friday sample)) 0x01) 7 = false.
Proof.
  split; [reflexivity|].
  apply (block_write_already_clears_flag friday sample _ sample_bytes eq_refl).
Defined.

(** X8: how an assignment of [datetime] fails on the bus.  If the block
    write is refused the call raises [OSError] and no register has changed.
    If the block write went through and the read or the write of the
    flag-clearing step is refused, the call raises [OSError] although the
    chip already holds the new time, with the compromised flag clear. *)
Theorem datetime_setter_refusals (value : struct_time) (fs : list bool) (w : world) :
  byte_regs w -> storable value = true ->
  (faults w = true :: fs ->
     exists w', PCF85263A.datetime_setter rtc value w = (Raise OSError, w')
                /\ regs w' = regs w)
  /\ (faults w = false :: true :: fs \/ faults w = false :: false :: true :: fs ->
        exists w', PCF85263A.datetime_setter rtc value w = (Raise OSError, w')
                   /\ regs w' = block_stored value (regs w)
                   /\ Z.testbit (regs w' 0x01) 7 = false).
Proof.
  intros Hw Hs. rewrite datetime_setter_run by assumption. rewrite Hs. cbn zeta.
  split.
  - intros ->. eexists. split; reflexivity.
  - intros [-> | ->]; eexists; (split; [reflexivity|]); autorewrite with world;
      (split; [reflexivity | apply masked_seconds_bit7]).
Qed.

Lemma datetime_setter_refusals_witness :
  fst (PCF85263A.datetime_setter rtc friday (refused_at 1)) = Raise OSError
  /\ same_fields
       (decoded (regs (snd (PCF85263A.datetime_setter rtc friday (refused_at 1)))))
       friday.
Proof.
  destruct (datetime_setter_refusals friday [] (refused_at 1))
    as [_ H]; [exact sample_bytes | reflexivity |].
  destruct (H (or_introl eq_refl)) as (w' & E & R & _).
  rewrite E. cbn [fst snd]. split; [reflexivity|].
  rewrite R. repeat split.
Defined.

(** X9: writing the compromised flag, either way, does not disturb the
    time: only bit 7 of register 0x01 can change and a following read of
    [datetime] returns the value a read before the write returns, the one
    the registers spell out. *)
Theorem compromised_flag_write_keeps_time (on : bool) (w : world) :
  byte_regs w -> fault_free w ->
  exists w1 r,
    i2c_bit.set PCF85263A.datetime_compromised (PCF85263A.i2c_device rtc) on w
      = (Ok tt, w1)
    /\ fst (PCF85263A.datetime rtc w1) = Ok r
    /\ fst (PCF85263A.datetime rtc w) = Ok r
    /\ reads_digits (regs w) r
    /\ (forall j, j <> 7 ->
          Z.testbit (regs w1 0x01) j = Z.testbit (regs w 0x01) j).
Proof.
  intros Hw Hf. unfold PCF85263A.datetime_compromised.
  rewrite RWBit_set_run by (assumption || lia). cbn zeta. rewrite Hf.
  eexists. exists (decoded (regs w)). split; [reflexivity|].
  unfold PCF85263A.datetime. rewrite !BCD_get_run. cbn zeta.
  unfold next_fault. autorewrite with world. rewrite Hf. cbn [tl hd fst].
  split; [|split; [reflexivity|split; [apply decoded_reads_digits|]]].
  - f_equal. unfold decoded. cbn [upd Z.eqb Pos.eqb].
    now rewrite seconds_mask_hides_flag.
  - intros j Hj. rewrite upd_same, with_bit_spec by lia.
    destruct (Z.eqb_spec 7 j); [lia | reflexivity].
Qed.

Lemma compromised_flag_write_keeps_time_witness :
  exists w1 r,
    i2c_bit.set PCF85263A.datetime_compromised (PCF85263A.i2c_device rtc) false
      running = (Ok tt, w1)
    /\ fst (PCF85263A.datetime rtc w1) = Ok r
    /\ same_fields r friday.
Proof.
  destruct (compromised_flag_write_keeps_time false running running_bytes eq_refl)
    as (w1 & r & E & G & _ & D & _).
  exists w1, r. split; [exact E|]. split; [exact G|].
  destruct D as (G1 & G2 & G3 & G4 & G5 & G6 & G7 & _).
  unfold same_fields. rewrite G1, G2, G3, G4, G5, G6, G7.
  repeat split.
Defined.

(** ** Decimal digits *)

Lemma bin2bcd_digits (x : Z) :
  i2c_bcd_datetime._bin2bcd x = 16 * (x / 10) + x mod 10.
Proof.
  unfold i2c_bcd_datetime._bin2bcd. pose proof (Z.div_mod x 10 ltac:(lia)). lia.
Qed.

Lemma stored_seconds_digits (s : Z) :
  0 <= s <= 59 ->
  with_bit (Z.land (i2c_bcd_datetime._bin2bcd s) 0x7F) 7 false
  = i2c_bcd_datetime._bin2bcd s.
Proof.
  intros Hs.
  pose proof (all_bytes_sound
                (fun s => (59 <? s) ||
                          (with_bit (Z.land (i2c_bcd_datetime._bin2bcd s) 0x7F) 7 false
                           =? i2c_bcd_datetime._bin2bcd s))
                eq_refl s ltac:(lia)) as H.
  cbv beta in H. apply orb_true_iff in H as [H|H]; [apply Z.ltb_lt in H; lia|].
  now apply Z.eqb_eq.
Qed.

(** X10: after a successful assignment of a valid value each register of the
    block holds the two decimal digits of its field, tens in the high nibble
    and units in the low one: seconds at 0x01, minutes at 0x02, hours at
    0x03, day at 0x04, weekday at 0x05, month at 0x06, and the year counted
    from 2000 at 0x07. *)
Theorem block_registers_hold_decimal_digits
    (value : struct_time) (w w' : world) :
  byte_regs w -> valid_datetime value = true ->
  PCF85263A.datetime_setter rtc value w = (Ok tt, w') ->
  regs w' 0x01 = 16 * (tm_sec value / 10) + tm_sec value mod 10
  /\ regs w' 0x02 = 16 * (tm_min value / 10) + tm_min value mod 10
  /\ regs w' 0x03 = 16 * (tm_hour value / 10) + tm_hour value mod 10
  /\ regs w' 0x04 = 16 * (tm_mday value / 10) + tm_mday value mod 10
  /\ regs w' 0x05 = tm_wday value
  /\ regs w' 0x06 = 16 * (tm_mon value / 10) + tm_mon value mod 10
  /\ regs w' 0x07 = 16 * ((tm_year value - 2000) / 10) + (tm_year value - 2000) mod 10.
Proof.
  intros Hw Hv Hrun.
  destruct (datetime_setter_ok value w w' Hw Hrun) as (_ & Hr & _).
  destruct (registers_after_setter value (regs w))
    as (H1 & H2 & H3 & H4 & H5 & H6 & H7 & _).
  cbv zeta in *. rewrite Hr, H1, H2, H3, H4, H5, H6, H7.
  pose proof (valid_datetime_bounds value Hv) as Hb.
  rewrite stored_seconds_digits by lia. rewrite !bin2bcd_digits.
  repeat split.
  rewrite Z.add_0_r, Z.div_small, Z.mod_small by lia. lia.
Qed.

Lemma block_registers_hold_decimal_digits_witness :
  regs (snd (PCF85263A.datetime_setter rtc friday sample)) 0x01 = 0x45
  /\ regs (snd (PCF85263A.datetime_setter rtc friday sample)) 0x07 = 0x24.
Proof.
  destruct (block_registers_hold_decimal_digits friday sample
              (snd (PCF85263A.datetime_setter rtc friday sample))
              sample_bytes eq_refl eq_refl)
    as (H1 & _ & _ & _ & _ & _ & H7).
  split; [rewrite H1 | rewrite H7]; reflexivity.
Defined.

(** ** Reading and writing back *)

Lemma bcd_inverse (b : Z) :
  0 <= b < 256 -> is_bcd b = true ->
  i2c_bcd_datetime._bin2bcd (i2c_bcd_datetime._bcd2bin b) = b.
Proof.
  intros Hb Hd.
  pose proof (all_bytes_sound
                (fun b => negb (is_bcd b) ||
                          (i2c_bcd_datetime._bin2bcd (i2c_bcd_datetime._bcd2bin b) =? b))
                eq_refl b Hb) as H.
  cbv beta in H. rewrite Hd in H. now apply Z.eqb_eq.
Qed.

Lemma land_127_range (x : Z) : 0 <= Z.land x 0x7F < 128.
Proof.
  change 0x7F with (Z.ones 7). rewrite Z.land_ones by lia.
  change (2 ^ 7) with 128. apply Z.mod_pos_bound. lia.
Qed.

Lemma land_127_idem (x : Z) : Z.land (Z.land x 0x7F) 0x7F = Z.land x 0x7F.
Proof. rewrite <- Z.land_assoc. reflexivity. Qed.

(** The bytes the setter builds from a value just read are the bytes the
    registers hold, when those are decimal digits within their fields. *)
Lemma datetime_bytes_of_decoded (f : Z -> Z) :
  byte_file f -> holds_bcd_block f = true ->
  datetime_bytes (decoded f) = [Z.land (f 1) 0x7F; f 2; f 3; f 4; f 5; f 6; f 7].
Proof.
  intros Hf Hd. unfold holds_bcd_block, within in Hd. cbn [forallb] in Hd.
  rewrite !andb_true_iff, !Z.eqb_eq in Hd.
  destruct Hd as [[[[[[D1 (D2 & D3 & D4 & D5 & D6 & D7 & _)] M2] M3] M4] M5] M6].
  unfold datetime_bytes, decoded.
  cbn [tm_year tm_mon tm_mday tm_wday tm_hour tm_min tm_sec].
  rewrite M2, M3, M4, M5, M6.
  rewrite Z.sub_0_r, Z.add_0_r, Z.add_simpl_r.
  pose proof (land_127_range (f 1)).
  rewrite !bcd_inverse by (assumption || apply Hf || lia).
  now rewrite land_127_idem.
Qed.

(** X11: when the block registers hold decimal digits and no bit outside
    the bits their fields use (0x7F minutes, 0x3F hours and day, 0x07
    weekday, 0x1F month), reading [datetime] and assigning the value read
    puts the same bytes back: every register is as it was, except that bit 7
    of register 0x01 (the compromised flag) is now clear. *)
Theorem datetime_read_write_back (w : world) :
  byte_regs w -> fault_free w -> holds_bcd_block (regs w) = true ->
  exists r w1 w2,
    PCF85263A.datetime rtc w = (Ok r, w1)
    /\ PCF85263A.datetime_setter rtc r w1 = (Ok tt, w2)
    /\ regs w2 0x01 = Z.land (regs w 0x01) 0x7F
    /\ (forall a, a <> 0x01 -> regs w2 a = regs w a).
Proof.
  intros Hw Hf Hd.
  unfold PCF85263A.datetime. rewrite BCD_get_run. cbn zeta.
  unfold next_fault. rewrite Hf. cbn [hd].
  pose proof (datetime_bytes_of_decoded (regs w) Hw Hd) as Hbytes.
  assert (storable (decoded (regs w)) = true) as Hs.
  { unfold storable. rewrite Hbytes. cbn [forallb].
    rewrite land_127_byte.
    rewrite !(proj2 (is_byte_iff _) (Hw _)). reflexivity. }
  set (w1 := issue _ w).
  assert (byte_regs w1) as Hw1 by exact Hw.
  assert (fault_free w1) as Hf1 by (unfold fault_free, w1; cbn; now rewrite Hf).
  exists (decoded (regs w)), w1. eexists. split; [reflexivity|].
  split; [apply datetime_setter_fault_free; assumption|].
  autorewrite with world. change (regs w1) with (regs w).
  unfold flag_cleared, block_stored. rewrite Hbytes. cbn [store_run].
  split.
  - rewrite upd_same.
    change (store_run _ _ _ 1) with (Z.land (regs w 1) 0x7F).
    rewrite <- (masked_seconds_bit7 (regs w 1)) at 1.
    apply with_bit_same. lia.
  - intros a Ha. rewrite upd_other by assumption.
    destruct (Z.lt_ge_cases a 1) as [Hlo|Hlo].
    + cbn. unfold upd.
      repeat match goal with |- context [?x =? ?y] => destruct (Z.eqb_spec x y) end;
        try lia; reflexivity.
    + destruct (Z.lt_ge_cases 7 a) as [Hhi|Hhi].
      * cbn. unfold upd.
        repeat match goal with |- context [?x =? ?y] => destruct (Z.eqb_spec x y) end;
          try lia; reflexivity.
      * destruct (in_block_cases a ltac:(lia)) as [->|[->|[->|[->|[->|[->| ->]]]]]];
          try lia; reflexivity.
Qed.

Lemma datetime_read_write_back_witness :
  exists r w1 w2,
    PCF85263A.datetime rtc running = (Ok r, w1)
    /\ PCF85263A.datetime_setter rtc r w1 = (Ok tt, w2)
    /\ regs running 0x01 = 0xC5 /\ regs w2 0x01 = 0x45.
Proof.
  destruct (datetime_read_write_back running running_bytes eq_refl eq_refl)
    as (r & w1 & w2 & G & S & R1 & _).
  exists r, w1, w2. split; [exact G|]. split; [exact S|].
  split; [reflexivity|]. rewrite R1. reflexivity.
Defined.

(** ** What a read can return *)

(** X13: the getter checks nothing, so its fields may lie outside the
    calendar; but for byte registers the masks bound them: no field is
    negative, seconds and minutes are at most 85, hours and day at most 45,
    the weekday at most 7, the month at most 25, the year lies between 2000
    and 2165, and the day of the year and the daylight flag are always -1. *)
Theorem datetime_getter_field_bounds (w w1 : world) (r : struct_time) :
  byte_regs w ->
  PCF85263A.datetime rtc w = (Ok r, w1) ->
  0 <= tm_sec r <= 85 /\ 0 <= tm_min r <= 85
  /\ 0 <= tm_hour r <= 45 /\ 0 <= tm_mday r <= 45
  /\ 0 <= tm_wday r <= 7
  /\ 0 <= tm_mon r <= 25
  /\ 2000 <= tm_year r <= 2165
  /\ tm_yday r = -1 /\ tm_isdst r = -1.
Proof.
  intros Hw Hrun. unfold PCF85263A.datetime in Hrun.
  rewrite BCD_get_run in Hrun. cbn zeta in Hrun.
  destruct (next_fault w); [discriminate|]. injection Hrun as <- _.
  assert (forall mask hi,
            all_bytes (fun b => (0 <=? i2c_bcd_datetime._bcd2bin (Z.land b mask))
                                && (i2c_bcd_datetime._bcd2bin (Z.land b mask) <=? hi))
            = true ->
            forall b, 0 <= b < 256 ->
                      0 <= i2c_bcd_datetime._bcd2bin (Z.land b mask) <= hi) as B.
  { intros mask hi Hall b Hb.
    pose proof (all_bytes_sound _ Hall b Hb) as H.
    cbv beta in H. apply andb_true_iff in H as [H1 H2].
    apply Z.leb_le in H1, H2. lia. }
  unfold decoded.
  cbn [tm_year tm_mon tm_mday tm_wday tm_hour tm_min tm_sec tm_yday tm_isdst].
  rewrite Z.sub_0_r.
  pose proof (B 0x7F 85 eq_refl _ (Hw 1)). pose proof (B 0x7F 85 eq_refl _ (Hw 2)).
  pose proof (B 0x3F 45 eq_refl _ (Hw 3)). pose proof (B 0x3F 45 eq_refl _ (Hw 4)).
  pose proof (B 0x07 7 eq_refl _ (Hw 5)). pose proof (B 0x1F 25 eq_refl _ (Hw 6)).
  pose proof (B 0xFF 165 eq_refl _ (Hw 7)) as Hy.
  replace (Z.land (regs w 7) 0xFF) with (regs w 7) in Hy.
  2:{ change 0xFF with (Z.ones 8). rewrite Z.land_ones by lia.
      symmetry. apply Z.mod_small. apply Hw. }
  repeat split; lia.
Qed.

Lemma datetime_getter_field_bounds_witness :
  exists r w1,
    PCF85263A.datetime rtc sample = (Ok r, w1)
    /\ 2000 <= tm_year r <= 2165 /\ 0 <= tm_sec r <= 85.
Proof.
  eexists. eexists. split; [reflexivity|].
  destruct (datetime_getter_field_bounds sample _ _ sample_bytes eq_refl)
    as (Hs & _ & _ & _ & _ & _ & Hy & _).
  split; [exact Hy | exact Hs].
Defined.
